(** * MeshMind C API: the detector handle boundary

    A shallow embedding of [src/cpp/src/core.cpp] and of the declarations of
    [src/cpp/include/meshmind/core.h].

    The C API drives a Python engine through an embedded interpreter.  The
    engine is not part of the repository: it is an interface here (the class
    [Engine]), and every statement holds for every engine.  C++ state is
    explicit: a [World] holds the live detector structs, the caller's result
    arrays and the state of the interpreter, and each entry point is a
    computation over it that returns, lets a C++ exception escape, or has
    undefined behaviour. *)

From Stdlib Require Import ZArith String Ascii List PrimFloat DecimalString.
From stdpp Require Import base option list gmap.

Local Open Scope string_scope.
Local Open Scope list_scope.
Local Open Scope Z_scope.

(** ** Error codes ([core.h], lines 16-22) *)

Definition MESHMIND_SUCCESS : Z := 0.
Definition MESHMIND_ERROR_INIT : Z := -1.
Definition MESHMIND_ERROR_LOAD : Z := -2.
Definition MESHMIND_ERROR_DETECT : Z := -3.
Definition MESHMIND_ERROR_EXPORT : Z := -4.
Definition MESHMIND_ERROR_INVALID_PARAM : Z := -5.

(** ** C scalars *)

(** [double] is an IEEE 754 binary64 value. *)
Abbreviation double := PrimFloat.float.

Definition INT_MAX : Z := 2147483647.

(** [(int) n] for an unsigned [n]: the value modulo 2^32, read as a signed
    32-bit integer. *)
Definition to_int (n : Z) : Z :=
  let r := n mod 4294967296 in
  if r <=? INT_MAX then r else r - 4294967296.

(** Addresses of heap objects; a pointer is [None] when it is null. *)
Definition loc := positive.
Definition ptr := option loc.
Definition nullptr : ptr := None.

(** [const char*]: null, or the characters up to the terminator. *)
Definition c_string := option string.

(** ** Detection records ([core.h], lines 60-66) *)

Record MeshMindDetection := {
  feature_id : list ascii;   (* char feature_id[256] *)
  transform : list double;   (* double transform[16], row-major *)
  confidence : double;
  position : list double;    (* double position[3] *)
  radius : double
}.

Definition NUL : ascii := Ascii.zero.

(** [memset(&result, 0, sizeof(result))] *)
Definition zeroed_detection : MeshMindDetection :=
  {| feature_id := replicate 256 NUL;
     transform := replicate 16 0%float;
     confidence := 0%float;
     position := replicate 3 0%float;
     radius := 0%float |}.

(** ** C++ control flow

    A call returns a value, or ends in a C++ exception, or has undefined
    behaviour (an access through a dangling pointer or outside an array).
    Writes made before an exception is thrown stay made. *)

(** A Python exception as pybind11 fetches it: the name of its class, and the
    text of its value followed by the traceback. *)
Record python_error := {
  exc_type : string;
  exc_value : string
}.

(** The string pybind11 builds for [error_already_set::what()]: the class
    name, a colon and a space, then the value and the traceback. *)
Definition error_string (err : python_error) : string :=
  (exc_type err ++ ": " ++ exc_value err)%string.
Arguments error_string : simpl never.
Coercion error_string : python_error >-> string.

Inductive exception :=
| error_already_set (err : python_error)   (* pybind11::error_already_set *)
| std_exception (what : string).           (* any other std::exception *)

Definition what (e : exception) : string :=
  match e with
  | error_already_set err => error_string err
  | std_exception w => w
  end.

Inductive outcome (St A : Type) :=
| Returns (a : A) (s : St)
| Throws (e : exception) (s : St)
| Undefined.
Arguments Returns {St A} a s.
Arguments Throws {St A} e s.
Arguments Undefined {St A}.

Definition comp (St A : Type) : Type := St -> outcome St A.

(** The value of a call that returns. *)
Definition returned {St A} (o : outcome St A) : option A :=
  match o with
  | Returns a _ => Some a
  | _ => None
  end.

Definition ret {St A} (a : A) : comp St A := fun s => Returns a s.

Definition bind {St A B} (m : comp St A) (k : A -> comp St B) : comp St B :=
  fun s => match m s with
           | Returns a s' => k a s'
           | Throws e s' => Throws e s'
           | Undefined => Undefined
           end.

Definition throw {St A} (e : exception) : comp St A := fun s => Throws e s.

Definition undefined {St A} : comp St A := fun _ => Undefined.

(** [try { m } catch ...]: the handler says which exceptions its clauses
    match; the others propagate. *)
Definition try_catch {St A} (m : comp St A)
    (handler : exception -> option (comp St A)) : comp St A :=
  fun s => match m s with
           | Throws e s' =>
               match handler e with
               | Some k => k s'
               | None => Throws e s'
               end
           | o => o
           end.

Declare Scope comp_scope.
Delimit Scope comp_scope with comp.
Notation "x <- m ;; k" := (bind m (fun x => k))
  (at level 100, m at next level, right associativity) : comp_scope.
Notation "m ;; k" := (bind m (fun _ => k))
  (at level 100, right associativity) : comp_scope.
Local Open Scope comp_scope.

(** [for (int i = lo; i < lo + n; i++) a = body(i, a);] *)
Fixpoint for_loop {St A} (lo : nat) (n : nat) (body : nat -> A -> comp St A)
    (a : A) : comp St A :=
  match n with
  | O => ret a
  | S n' => a' <- body lo a ;; for_loop (S lo) n' body a'
  end.

(** ** The engine behind the API

    What the embedded interpreter hands over for one entry of
    [mesher.detections]: each attribute read of [meshmind_detect] either
    converts to the C++ type or throws. *)

Inductive fetched (A : Type) :=
| Value (a : A)
| Raises (e : exception).
Arguments Value {A} a.
Arguments Raises {A} e.

Definition fetch {St A} (f : fetched A) : comp St A :=
  match f with
  | Value a => ret a
  | Raises e => throw e
  end.

(** [py::array_t<double>] *)
Inductive array_t :=
| Matrix (rows : list (list double))   (* ndim == 2 *)
| OtherRank (ndim : nat).              (* ndim != 2 *)

Record PyDetection := {
  (* std::string feature_id = py::str(det.attr("feature_id")) *)
  py_feature_id : fetched string;
  (* py::array_t<double> transform = det.attr("transform") *)
  py_transform : fetched array_t;
  (* py::float_(det.attr("confidence")) *)
  py_confidence : fetched double;
  (* py::dict metadata = det.attr("region_metadata"); inside, [None] when
     the dict has no key "radius", and py::float_(metadata["radius"])
     otherwise *)
  py_region_metadata : fetched (option (fetched double))
}.

(** The Python side: the interpreter, the [AutoMesher] object and the
    fTetWild generator.  [Py] is the state of the interpreter and of all the
    engine reaches from it (files included). *)
Class Engine := {
  Py : Type;
  PyObject : Type;            (* py::object *)
  scoped_interpreter : Type;  (* py::scoped_interpreter *)
  (* new py::scoped_interpreter() *)
  new_scoped_interpreter : comp Py scoped_interpreter;
  (* delete guard: ~scoped_interpreter() finalizes the interpreter *)
  delete_scoped_interpreter : scoped_interpreter -> comp Py unit;
  (* ~object() of a struct's mesher: handle::dec_ref(), the release of the
     reference to the Python object *)
  dec_ref : PyObject -> comp Py unit;
  (* py::module_::import("meshmind.sdk.mesher").attr("AutoMesher")() *)
  AutoMesher : comp Py PyObject;
  (* mesher.attr("load_target")(stl_path) *)
  load_target : PyObject -> string -> comp Py unit;
  (* py::list detections = mesher.attr("detections") *)
  detections : PyObject -> comp Py (list PyDetection);
  (* mesher.attr("generate_refinement")() and (enable_mrf=b) *)
  generate_refinement : PyObject -> option bool -> comp Py unit;
  (* mesher.attr("export_snappy_dict")(path) and (path, enable_mrf) *)
  export_snappy_dict : PyObject -> string -> option Z -> comp Py unit;
  (* py::module_::import("meshmind.plugins.mesh_generators.ftetwild")
       .attr("FTetWildGenerator")() *)
  FTetWildGenerator : comp Py PyObject;
  (* gen.attr("generate_refinement_config")(detections, params), with
     params = {"base_size": b, "refinement_factor": f} *)
  generate_refinement_config :
    PyObject -> list PyDetection -> double -> double -> comp Py PyObject;
  (* gen.attr("export_config")(config, output_path) *)
  export_config : PyObject -> PyObject -> string -> comp Py unit
}.

(** Modelled from the spec: the engine's [load_target] is not part of the
    sources.  Of a load the spec says that it reads the geometry "from the
    given file path" and that "calling load_target with a nonexistent path
    returns a negative status and a non-empty error string thereafter": the
    engine fails for a path at which no file exists, which a Python engine
    does by raising.  [file_exists p path] tells whether, in the state [p]
    of the interpreter's process, a file exists at [path]. *)
Class Files `{E : Engine} := {
  file_exists : Py -> string -> bool;
  load_target_missing :
    forall (m : PyObject) (path : string) (p : Py),
      file_exists p path = false ->
      exists err p', load_target m path p = Throws (error_already_set err) p'
}.

(** ** Marshalling one detection (the body of the loop of [meshmind_detect]) *)

(** The characters [strncpy(dest, src.c_str(), n)] writes: those of [src] up
    to its first NUL, then NULs, [n] in all. *)
Fixpoint strncpy_chars (src : string) (n : nat) {struct n} : list ascii :=
  match n with
  | O => []
  | S n' =>
      match src with
      | String c s =>
          if Ascii.eqb c NUL then replicate n NUL else c :: strncpy_chars s n'
      | EmptyString => replicate n NUL
      end
  end.

(** [strncpy(dest, src.c_str(), n)], for [n] within [dest]. *)
Definition strncpy (dest : list ascii) (src : string) (n : nat) : list ascii :=
  strncpy_chars src n ++ drop n dest.

Definition set_feature_id (v : list ascii) (r : MeshMindDetection) :=
  {| feature_id := v; transform := transform r; confidence := confidence r;
     position := position r; radius := radius r |}.
Definition set_transform (v : list double) (r : MeshMindDetection) :=
  {| feature_id := feature_id r; transform := v; confidence := confidence r;
     position := position r; radius := radius r |}.
Definition set_confidence (v : double) (r : MeshMindDetection) :=
  {| feature_id := feature_id r; transform := transform r; confidence := v;
     position := position r; radius := radius r |}.
Definition set_position (v : list double) (r : MeshMindDetection) :=
  {| feature_id := feature_id r; transform := transform r;
     confidence := confidence r; position := v; radius := radius r |}.
Definition set_radius (v : double) (r : MeshMindDetection) :=
  {| feature_id := feature_id r; transform := transform r;
     confidence := confidence r; position := position r; radius := v |}.

(** [a[i]] for [i] within [a]. *)
Definition at_index (a : list double) (i : nat) : double := nth i a 0%float.

(** [std::to_string(n)] for a size. *)
Definition to_string (n : nat) : string :=
  NilZero.string_of_uint (Nat.to_uint n).

(** [transform.unchecked<2>()] throws [std::domain_error] unless the array
    has two dimensions; the message names the number it has. *)
Definition unchecked2 (a : array_t) : comp unit (list (list double)) :=
  match a with
  | Matrix rows => ret rows
  | OtherRank ndim =>
      throw (std_exception
               ("array has incorrect number of dimensions: "
                ++ to_string ndim ++ "; expected 2")%string)
  end.

(** [transform_buf(r, c)] within the shape of the array.  The proxy checks
    no bounds: an index outside the shape reads whatever lies at the strided
    address, inside the array's buffer or not.  The layout of the buffer is
    not modelled, so no value is given for such a read. *)
Definition unchecked_at (rows : list (list double)) (r c : nat)
    : comp unit double :=
  match rows !! r ≫= (fun row => row !! c) with
  | Some v => ret v
  | None => undefined
  end.

Definition catch_all {St A} (k : comp St A) : exception -> option (comp St A) :=
  fun _ => Some k.

(** Lines 104-136 of core.cpp: they act on the local [result] only, so the
    computation has no state. *)
Definition marshal (det : PyDetection) : comp unit MeshMindDetection :=
  let result := zeroed_detection in
  fid <- fetch (py_feature_id det) ;;
  let result :=
    set_feature_id (strncpy (feature_id result) fid (256 - 1)) result in
  transform_arr <- fetch (py_transform det) ;;
  transform_buf <- unchecked2 transform_arr ;;
  result <-
    for_loop 0 4 (fun r result =>
      for_loop 0 4 (fun c result =>
        v <- unchecked_at transform_buf r c ;;
        ret (set_transform (<[(r * 4 + c)%nat := v]> (transform result)) result))
      result)
    result ;;
  let result :=
    set_position (<[0%nat := at_index (transform result) 3]> (position result))
      result in
  let result :=
    set_position (<[1%nat := at_index (transform result) 7]> (position result))
      result in
  let result :=
    set_position (<[2%nat := at_index (transform result) 11]> (position result))
      result in
  conf <- fetch (py_confidence det) ;;
  let result := set_confidence conf result in
  result <-
    try_catch
      (metadata <- fetch (py_region_metadata det) ;;
       match metadata with
       | Some rad => v <- fetch rad ;; ret (set_radius v result)
       | None => ret result
       end)
      (catch_all (ret (set_radius 0%float result))) ;;
  ret result.

(** [params["base_size"] = 0.1; params["refinement_factor"] = 0.2] (lines
    217-218), as the nearest binary64 values. *)
Definition base_size : double := 0x1.999999999999ap-4%float.
Definition refinement_factor : double := 0x1.999999999999ap-3%float.

(** ** The detector struct, the memory and the entry points *)

Section API.
Context `{E : Engine}.

(** [struct MeshMindDetector_t] (core.cpp, lines 17-22) *)
Record MeshMindDetector_t := {
  guard : scoped_interpreter;
  mesher : PyObject;
  last_error : string;
  cached_detections : list MeshMindDetection
}.

(** [MeshMindDetector] is a pointer to the struct. *)
Definition MeshMindDetector : Type := ptr.

Record World := {
  detectors : gmap loc MeshMindDetector_t;      (* live detector structs *)
  arrays : gmap loc (list MeshMindDetection);   (* the caller's arrays *)
  python : Py
}.

Definition set_last_error (v : string) (d : MeshMindDetector_t) :=
  {| guard := guard d; mesher := mesher d; last_error := v;
     cached_detections := cached_detections d |}.
Definition set_cached_detections (v : list MeshMindDetection)
    (d : MeshMindDetector_t) :=
  {| guard := guard d; mesher := mesher d; last_error := last_error d;
     cached_detections := v |}.

Definition set_detectors (v : gmap loc MeshMindDetector_t) (w : World) :=
  {| detectors := v; arrays := arrays w; python := python w |}.
Definition set_arrays (v : gmap loc (list MeshMindDetection)) (w : World) :=
  {| detectors := detectors w; arrays := v; python := python w |}.
Definition set_python (v : Py) (w : World) :=
  {| detectors := detectors w; arrays := arrays w; python := v |}.

(** A computation on locals only. *)
Definition local {A} (m : comp unit A) : comp World A :=
  fun w => match m tt with
           | Returns a _ => Returns a w
           | Throws e _ => Throws e w
           | Undefined => Undefined
           end.

(** A call into the engine acts on the interpreter's state only. *)
Definition py {A} (m : comp Py A) : comp World A :=
  fun w => match m (python w) with
           | Returns a p => Returns a (set_python p w)
           | Throws e p => Throws e (set_python p w)
           | Undefined => Undefined
           end.

(** [*detector], undefined through a dangling pointer. *)
Definition deref (l : loc) : comp World MeshMindDetector_t :=
  fun w => match detectors w !! l with
           | Some d => Returns d w
           | None => Undefined
           end.

(** [detector->field = ...] *)
Definition update (l : loc) (f : MeshMindDetector_t -> MeshMindDetector_t)
    : comp World unit :=
  fun w => match detectors w !! l with
           | Some d => Returns tt (set_detectors (<[l := f d]> (detectors w)) w)
           | None => Undefined
           end.

(** [new MeshMindDetector_t], at an address that is not live. *)
Definition new (d : MeshMindDetector_t) : comp World loc :=
  fun w => let l := fresh (dom (detectors w)) in
           Returns l (set_detectors (<[l := d]> (detectors w)) w).

(** The end of the storage of a struct. *)
Definition deallocate (l : loc) : comp World unit :=
  fun w => match detectors w !! l with
           | Some _ => Returns tt (set_detectors (delete l (detectors w)) w)
           | None => Undefined
           end.

(** [delete detector]: the destructor of the struct destroys its members,
    of which [mesher] holds a Python reference and releases it (the string
    and the vector hold none, [guard] is a plain pointer); then the storage
    ends. *)
Definition delete_detector (l : loc) : comp World unit :=
  d <- deref l ;;
  py (dec_ref (mesher d)) ;;
  deallocate l.

(** [results[i] = result], undefined outside the caller's array. *)
Definition store (b : loc) (i : nat) (r : MeshMindDetection) : comp World unit :=
  fun w => match arrays w !! b with
           | Some a =>
               if decide (i < length a)%nat
               then Returns tt (set_arrays (<[b := <[i := r]> a]> (arrays w)) w)
               else Undefined
           | None => Undefined
           end.

(** [static const char* MESHMIND_VERSION_STRING] (line 25) *)
Definition MESHMIND_VERSION_STRING : string := "1.0.0".

(** Lines 27-44.  The struct enters the memory once its fields are set: when
    an exception is caught the allocation of line 29 is unreachable, and no
    handle to it exists. *)
Definition meshmind_create_detector : comp World MeshMindDetector :=
  try_catch
    (g <- py new_scoped_interpreter ;;
     m <- py AutoMesher ;;
     l <- new {| guard := g; mesher := m; last_error := "";
                 cached_detections := [] |} ;;
     ret (Some l))
    (fun e => match e with
              | error_already_set _ => Some (ret nullptr)
              | std_exception _ => Some (ret nullptr)
              end).

(** Lines 46-51: the interpreter is finalized by [delete detector->guard]
    before [delete detector] releases the mesher. *)
Definition meshmind_destroy_detector (detector : MeshMindDetector)
    : comp World unit :=
  match detector with
  | Some l =>
      d <- deref l ;;
      py (delete_scoped_interpreter (guard d)) ;;
      delete_detector l
  | None => ret tt
  end.

(** [catch (const py::error_already_set& e) { detector->last_error = e.what();
    return code; }] *)
Definition on_python_error (l : loc) (code : Z)
    : exception -> option (comp World Z) :=
  fun e => match e with
           | error_already_set _ =>
               Some (update l (set_last_error (what e)) ;; ret code)
           | std_exception _ => None
           end.

(** The [try] block of lines 58-60. *)
Definition load_target_try (l : loc) (path : string) : comp World Z :=
  d <- deref l ;;
  py (load_target (mesher d) path) ;;
  ret MESHMIND_SUCCESS.

(** Lines 53-65. *)
Definition meshmind_load_target (detector : MeshMindDetector)
    (stl_path : c_string) : comp World Z :=
  match detector, stl_path with
  | Some l, Some path =>
      try_catch (load_target_try l path)
        (on_python_error l MESHMIND_ERROR_LOAD)
  | _, _ => ret MESHMIND_ERROR_INVALID_PARAM
  end.

(** Lines 67-80. *)
Definition meshmind_add_template (detector : MeshMindDetector)
    (template_path : c_string) (feature_id : c_string) : comp World Z :=
  match detector, template_path with
  | Some _, Some _ => ret MESHMIND_SUCCESS
  | _, _ => ret MESHMIND_ERROR_INVALID_PARAM
  end.

(** [detections[i]]: Python raises IndexError outside the list. *)
Definition list_item {St} (dets : list PyDetection) (i : nat)
    : comp St PyDetection :=
  match dets !! i with
  | Some det => ret det
  | None =>
      throw (error_already_set
               {| exc_type := "IndexError";
                  exc_value := "list index out of range" |})
  end.

(** One turn of the loop of lines 101-140. *)
Definition detect_step (l b : loc) (dets : list PyDetection) (i : nat)
    : comp World unit :=
  det <- list_item dets i ;;
  result <- local (marshal det) ;;
  store b i result ;;
  update l (fun d =>
    set_cached_detections (cached_detections d ++ [result]) d).

(** The [try] block of lines 92-142. *)
Definition detect_try (l b : loc) (max_results : Z) : comp World Z :=
  d <- deref l ;;
  dets <- py (detections (mesher d)) ;;
  let count := Z.min (to_int (Z.of_nat (length dets))) max_results in
  update l (set_cached_detections []) ;;
  for_loop 0 (Z.to_nat count) (fun i _ => detect_step l b dets i) tt ;;
  ret count.

(** Lines 82-148. *)
Definition meshmind_detect (detector : MeshMindDetector) (results : ptr)
    (max_results : Z) : comp World Z :=
  match detector, results with
  | Some l, Some b =>
      if max_results <=? 0 then ret MESHMIND_ERROR_INVALID_PARAM else
      try_catch (detect_try l b max_results)
        (on_python_error l MESHMIND_ERROR_DETECT)
  | _, _ => ret MESHMIND_ERROR_INVALID_PARAM
  end.

(** The [try] block of lines 159-165. *)
Definition export_snappy_dict_try (l : loc) (path : string) : comp World Z :=
  d <- deref l ;;
  py (generate_refinement (mesher d) None) ;;
  d <- deref l ;;
  py (export_snappy_dict (mesher d) path None) ;;
  ret MESHMIND_SUCCESS.

(** Lines 150-171. *)
Definition meshmind_export_snappy_dict (detector : MeshMindDetector)
    (output_path : c_string) : comp World Z :=
  match detector, output_path with
  | Some l, Some path =>
      try_catch (export_snappy_dict_try l path)
        (on_python_error l MESHMIND_ERROR_EXPORT)
  | _, _ => ret MESHMIND_ERROR_INVALID_PARAM
  end.

(** The [try] block of lines 183-191; [(bool)enable_mrf] is
    [enable_mrf != 0]. *)
Definition export_openfoam_case_try (l : loc) (dir : string) (enable_mrf : Z)
    : comp World Z :=
  d <- deref l ;;
  py (generate_refinement (mesher d) (Some (negb (enable_mrf =? 0)))) ;;
  d <- deref l ;;
  py (export_snappy_dict (mesher d) dir (Some enable_mrf)) ;;
  ret MESHMIND_SUCCESS.

(** Lines 173-197. *)
Definition meshmind_export_openfoam_case (detector : MeshMindDetector)
    (case_dir : c_string) (enable_mrf : Z) : comp World Z :=
  match detector, case_dir with
  | Some l, Some dir =>
      try_catch (export_openfoam_case_try l dir enable_mrf)
        (on_python_error l MESHMIND_ERROR_EXPORT)
  | _, _ => ret MESHMIND_ERROR_INVALID_PARAM
  end.

(** The [try] block of lines 208-225. *)
Definition export_ftetwild_sizing_try (l : loc) (path : string)
    : comp World Z :=
  ftetwild_gen <- py FTetWildGenerator ;;
  d <- deref l ;;
  dets <- py (detections (mesher d)) ;;
  config <-
    py (generate_refinement_config ftetwild_gen dets base_size
          refinement_factor) ;;
  py (export_config ftetwild_gen config path) ;;
  ret MESHMIND_SUCCESS.

(** Lines 199-231. *)
Definition meshmind_export_ftetwild_sizing (detector : MeshMindDetector)
    (output_path : c_string) : comp World Z :=
  match detector, output_path with
  | Some l, Some path =>
      try_catch (export_ftetwild_sizing_try l path)
        (on_python_error l MESHMIND_ERROR_EXPORT)
  | _, _ => ret MESHMIND_ERROR_INVALID_PARAM
  end.

(** Lines 233-235. *)
Definition meshmind_version : comp World string :=
  ret MESHMIND_VERSION_STRING.

(** Lines 237-242. *)
Definition meshmind_get_error (detector : MeshMindDetector)
    : comp World string :=
  match detector with
  | None => ret "Invalid detector handle"
  | Some l => d <- deref l ;; ret (last_error d)
  end.

(** ** Sessions

    The calls a caller makes on one handle between its creation and its
    destruction. *)
Inductive call :=
| LoadTarget (stl_path : c_string)
| AddTemplate (template_path feature_id : c_string)
| Detect (results : ptr) (max_results : Z)
| ExportSnappyDict (output_path : c_string)
| ExportOpenfoamCase (case_dir : c_string) (enable_mrf : Z)
| ExportFtetwildSizing (output_path : c_string).

Definition run_call (detector : MeshMindDetector) (c : call) : comp World Z :=
  match c with
  | LoadTarget p => meshmind_load_target detector p
  | AddTemplate p f => meshmind_add_template detector p f
  | Detect r n => meshmind_detect detector r n
  | ExportSnappyDict p => meshmind_export_snappy_dict detector p
  | ExportOpenfoamCase p f => meshmind_export_openfoam_case detector p f
  | ExportFtetwildSizing p => meshmind_export_ftetwild_sizing detector p
  end.

(** Each call of the session followed by a read of the error accessor; the
    log pairs the status of the call with the string read after it. *)
Fixpoint run_session (detector : MeshMindDetector) (cs : list call)
    : comp World (list (Z * string)) :=
  match cs with
  | [] => ret []
  | c :: cs' =>
      r <- run_call detector c ;;
      e <- meshmind_get_error detector ;;
      log <- run_session detector cs' ;;
      ret ((r, e) :: log)
  end.

(** The string read after the last call of the log that failed (a negative
    status), and [e0] when no call did. *)
Fixpoint last_failure (e0 : string) (log : list (Z * string)) : string :=
  match log with
  | [] => e0
  | (r, e) :: log' => last_failure (if r <? 0 then e else e0) log'
  end.

End API.

(** ** Notions of the statements *)

(** The fields the copy of the transform leaves alone. *)
Definition around_transform (r0 r : MeshMindDetection) : Prop :=
  feature_id r = feature_id r0 /\ confidence r = confidence r0 /\
  position r = position r0 /\ radius r = radius r0 /\
  length (transform r) = length (transform r0).

Section Notions.
Context `{E : Engine}.

(** The handle points to a live struct. *)
Definition valid (w : World) (l : loc) (d : MeshMindDetector_t) : Prop :=
  detectors w !! l = Some d.

(** No struct changes its [last_error], and none appears or disappears. *)
Definition same_errors : relation World :=
  fun w w' => forall l,
    last_error <$> detectors w' !! l = last_error <$> detectors w !! l.

(** Entry [j] of the array at [b]. *)
Definition entry (w : World) (b : loc) (j : nat) : option MeshMindDetection :=
  arrays w !! b ≫= (fun a => a !! j).

(** Every entry of the array at [b] is as it was or is the record
    marshalled from entry [j] of [dets]. *)
Definition written (dets : list PyDetection) (b : loc) : relation World :=
  fun w w' => forall j r,
    entry w' b j = Some r ->
    entry w b j = Some r \/
    exists det, dets !! j = Some det /\ marshal det tt = Returns r tt.

(** The [try] block a call on a non-null handle enters and the status its
    [catch] clause returns; [None] for a call that returns without one. *)
Definition try_block (l : loc) (c : call) : option (comp World Z * Z) :=
  match c with
  | LoadTarget (Some path) =>
      Some (load_target_try l path, MESHMIND_ERROR_LOAD)
  | Detect (Some b) n =>
      if n <=? 0 then None else Some (detect_try l b n, MESHMIND_ERROR_DETECT)
  | ExportSnappyDict (Some path) =>
      Some (export_snappy_dict_try l path, MESHMIND_ERROR_EXPORT)
  | ExportOpenfoamCase (Some dir) f =>
      Some (export_openfoam_case_try l dir f, MESHMIND_ERROR_EXPORT)
  | ExportFtetwildSizing (Some path) =>
      Some (export_ftetwild_sizing_try l path, MESHMIND_ERROR_EXPORT)
  | _ => None
  end.

(** The call returns [code] and the accessor then returns [msg]. *)
Definition reports (m : comp World Z) (l : loc) (code : Z) (msg : string)
    (w : World) : Prop :=
  exists w', m w = Returns code w' /\
             meshmind_get_error (Some l) w' = Returns msg w'.

(** [rs] are the records marshalled from [dets], in order. *)
Definition marshalled (dets : list PyDetection) (rs : list MeshMindDetection)
    : Prop :=
  Forall2 (fun det r => marshal det tt = Returns r tt) dets rs.

(** The state once the loop of [meshmind_detect] has stored [rs] from index
    [lo] on: the array holds them in place of what it held, the cache has
    them appended. *)
Definition wrote (l b : loc) (d : MeshMindDetector_t)
    (a : list MeshMindDetection) (lo : nat) (rs : list MeshMindDetection)
    (w : World) : World :=
  {| detectors :=
       <[l := set_cached_detections (cached_detections d ++ rs) d]>
         (detectors w);
     arrays := <[b := take lo a ++ rs ++ drop (lo + length rs) a]> (arrays w);
     python := python w |}.

(** The radius the engine provides for a detection, if it does. *)
Definition provided_radius (det : PyDetection) : option double :=
  match py_region_metadata det with
  | Value (Some (Value v)) => Some v
  | _ => None
  end.

(** The detection without its [region_metadata]: the attribute is an empty
    dict. *)
Definition without_metadata (det : PyDetection) : PyDetection :=
  {| py_feature_id := py_feature_id det;
     py_transform := py_transform det;
     py_confidence := py_confidence det;
     py_region_metadata := Value None |}.

(** The layout of [core.h], lines 60-66: the identifier fills its 256
    bytes and ends in NUL, and the position is the translation column of the
    row-major transform. *)
Definition well_formed (r : MeshMindDetection) : Prop :=
  length (feature_id r) = 256%nat /\
  feature_id r !! 255%nat = Some NUL /\
  length (transform r) = 16%nat /\
  length (position r) = 3%nat /\
  forall k, (k < 3)%nat -> position r !! k = transform r !! (4 * k + 3)%nat.

End Notions.

(** ** Notions for the rest of the code *)

(** The characters a reader of a C string finds in [buf] ([printf("%s")],
    [operator<<]): those before the first NUL; [None] when [buf] holds no
    NUL, where the reader runs off the buffer. *)
Fixpoint read_c_string (buf : list ascii) : option string :=
  match buf with
  | [] => None
  | c :: buf' =>
      if Ascii.eqb c NUL then Some EmptyString
      else String c <$> read_c_string buf'
  end.

(** The characters of [s] before its first NUL: what [s.c_str()] is to a
    reader of C strings. *)
Fixpoint c_str (s : string) : string :=
  match s with
  | EmptyString => EmptyString
  | String c s' => if Ascii.eqb c NUL then EmptyString else String c (c_str s')
  end.

(** The first [n] characters of [s]. *)
Fixpoint string_take (n : nat) (s : string) : string :=
  match n, s with
  | S n', String c s' => String c (string_take n' s')
  | _, _ => EmptyString
  end.

(** Entry [(i, j)] of a two-dimensional array. *)
Definition at2 (rows : list (list double)) (i j : nat) : option double :=
  rows !! i ≫= (fun row => row !! j).

(** The first [n] entries of [t] are those of [rows] in row-major order, and
    [t] has the 16 entries of [double transform[16]]. *)
Definition row_major_upto (rows : list (list double)) (n : nat)
    (t : list double) : Prop :=
  length t = 16%nat /\
  forall i j, (j < 4)%nat -> (i * 4 + j < n)%nat -> t !! (i * 4 + j)%nat = at2 rows i j.

Section Frames.
Context `{E : Engine}.

(** The array a call writes to, if it does. *)
Definition target (c : call) : ptr :=
  match c with
  | Detect results _ => results
  | _ => None
  end.

(** The structs and the arrays are as they were. *)
Definition untouched : relation World :=
  fun w w' => detectors w' = detectors w /\ arrays w' = arrays w.

(** The structs other than the one at [l] and the arrays other than the one at
    [b] are as they were, and no array has changed its size. *)
Definition others_kept (l : loc) (b : ptr) : relation World :=
  fun w w' =>
    (forall l', l' <> l -> detectors w' !! l' = detectors w !! l') /\
    (forall b', Some b' <> b -> arrays w' !! b' = arrays w !! b') /\
    (forall b', length <$> arrays w' !! b' = length <$> arrays w !! b').


End Frames.

(** ** The example programs ([examples/basic_usage.cpp],
    [examples/drivaer_mrf.cpp])

    A program runs on the memory of the API and writes to the two standard
    streams.  What it writes is kept as the calls it makes: a format string
    with its arguments, or an item inserted in a stream; string literals are
    spelled as in the source (escape sequences included), and no number is
    rendered. *)

Inductive item :=
| Text (s : string)          (* a C string *)
| Int (n : Z)
| Double (x : double)
| Fixed                      (* std::fixed *)
| Setprecision (n : Z).      (* std::setprecision(n) *)

Inductive stream := stdout | stderr.

Inductive output :=
| Printf (to : stream) (format : string) (args : list item)
| Insert (to : stream) (x : item).   (* stream << x *)

Section Programs.
Context `{E : Engine}.

Record Process := {
  memory : World;
  outputs : list output
}.

(** A call of the API from a program. *)
Definition api {A} (m : comp World A) : comp Process A :=
  fun s => match m (memory s) with
           | Returns a w => Returns a {| memory := w; outputs := outputs s |}
           | Throws e w => Throws e {| memory := w; outputs := outputs s |}
           | Undefined => Undefined
           end.

Definition emit (o : output) : comp Process unit :=
  fun s => Returns tt {| memory := memory s; outputs := outputs s ++ [o] |}.

(** [printf(format, args...)] and [fprintf(stderr, format, args...)] *)
Definition printf (format : string) (args : list item) : comp Process unit :=
  emit (Printf stdout format args).

(** [to << x1 << x2 << ...] *)
Fixpoint put (to : stream) (xs : list item) : comp Process unit :=
  match xs with
  | [] => ret tt
  | x :: xs' => emit (Insert to x) ;; put to xs'
  end.



(** [results[i]], undefined outside the array. *)
Definition load (b : loc) (i : nat) : comp World MeshMindDetection :=
  fun w => match entry w b i with
           | Some r => Returns r w
           | None => Undefined
           end.

(** A [char] array read as a C string, undefined when it holds no NUL. *)
Definition c_string_in {St} (buf : list ascii) : comp St string :=
  match read_c_string buf with
  | Some s => ret s
  | None => undefined
  end.

(** basic_usage.cpp, lines 39-44: the line printed for one record. *)
Definition print_feature (results : loc) (i : nat) : comp Process unit :=
  r <- api (load results i) ;;
  id <- c_string_in (feature_id r) ;;
  printf "  %s @ [%.2f, %.2f, %.2f] (%.0f%% confidence)\n"
    [Text id;
     Double (at_index (position r) 0);
     Double (at_index (position r) 1);
     Double (at_index (position r) 2);
     Double (confidence r * 100)%float].

(** basic_usage.cpp, lines 38-45. *)
Definition print_features (results : loc) (count : Z) : comp Process unit :=
  for_loop 0 (Z.to_nat count) (fun i _ => print_feature results i) tt.


(** drivaer_mrf.cpp, lines 66-75: what is shown for one record. *)
Definition show_result (results : loc) (i : nat) : comp Process unit :=
  r <- api (load results i) ;;
  id <- c_string_in (feature_id r) ;;
  put stdout [Int (Z.of_nat i + 1); Text ". "; Text id; Text "\n"] ;;
  put stdout [Text "   Confidence: "; Setprecision 1;
              Double (confidence r * 100)%float; Text "%\n"] ;;
  put stdout [Text "   Position: ["; Setprecision 3;
              Double (at_index (position r) 0); Text ", ";
              Double (at_index (position r) 1); Text ", ";
              Double (at_index (position r) 2); Text "]\n"] ;;
  (if (0 <? radius r)%float
   then put stdout [Text "   Radius: "; Double (radius r); Text " m\n"]
   else ret tt) ;;
  put stdout [Text "\n"].

(** drivaer_mrf.cpp, lines 65-76: the loop runs while
    [i < num_detected && i < 10]. *)
Definition show_results (results : loc) (num_detected : Z)
    : comp Process unit :=
  for_loop 0 (Z.to_nat (Z.min num_detected 10))
    (fun i _ => show_result results i) tt.






(** *** What the programs are expected to write *)

(** The line of basic_usage for a record and its identifier. *)
Definition feature_line (r : MeshMindDetection) (id : string) : output :=
  Printf stdout "  %s @ [%.2f, %.2f, %.2f] (%.0f%% confidence)\n"
    [Text id;
     Double (at_index (position r) 0);
     Double (at_index (position r) 1);
     Double (at_index (position r) 2);
     Double (confidence r * 100)%float].

(** The items drivaer_mrf inserts for record [i] and its identifier. *)
Definition result_items (i : nat) (r : MeshMindDetection) (id : string)
    : list output :=
  Insert stdout <$>
    ([Int (Z.of_nat i + 1); Text ". "; Text id; Text "\n";
      Text "   Confidence: "; Setprecision 1;
      Double (confidence r * 100)%float; Text "%\n";
      Text "   Position: ["; Setprecision 3;
      Double (at_index (position r) 0); Text ", ";
      Double (at_index (position r) 1); Text ", ";
      Double (at_index (position r) 2); Text "]\n"]
     ++ (if (0 <? radius r)%float
         then [Text "   Radius: "; Double (radius r); Text " m\n"]
         else [])
     ++ [Text "\n"]).

(** What a program writes for entry [i] of the array at [b], given what it
    writes for a record and its identifier. *)
Definition report (line : nat -> MeshMindDetection -> string -> list output)
    (w : World) (b : loc) (i : nat) : list output :=
  match entry w b i with
  | Some r =>
      match read_c_string (feature_id r) with
      | Some id => line i r id
      | None => []
      end
  | None => []
  end.

(** The state of the API is kept. *)
Definition same_memory : relation Process :=
  fun s s' => memory s' = memory s.

End Programs.

(** ** A scripted engine

    An engine small enough to run: it knows which files exist and which
    detections the target yields, and raises as Python does otherwise. *)
Module Scripted.

Record state := {
  running : bool;               (* an interpreter is initialised *)
  files : list string;          (* the files that exist *)
  target : option string;       (* the loaded target *)
  found : list PyDetection;     (* what [detections] holds *)
  written : list string         (* the files exported so far *)
}.

Definition set_running (v : bool) (p : state) :=
  {| running := v; files := files p; target := target p; found := found p;
     written := written p |}.
Definition set_target (v : option string) (p : state) :=
  {| running := running p; files := files p; target := v; found := found p;
     written := written p |}.
Definition set_written (v : list string) (p : state) :=
  {| running := running p; files := files p; target := target p;
     found := found p; written := v |}.

Definition start : comp state unit :=
  fun p => if running p
           then Throws (std_exception "The interpreter is already running") p
           else Returns tt (set_running true p).

Definition stop (_ : unit) : comp state unit :=
  fun p => Returns tt (set_running false p).

(** A reference is released through the interpreter that owns the object:
    once that interpreter is finalized the release has undefined
    behaviour. *)
Definition drop_reference (_ : unit) : comp state unit :=
  fun p => if running p then Returns tt p else Undefined.

Definition load (_ : unit) (path : string) : comp state unit :=
  fun p => if bool_decide (path ∈ files p)
           then Returns tt (set_target (Some path) p)
           else Throws (error_already_set
                          {| exc_type := "FileNotFoundError";
                             exc_value := path |}) p.

Definition write (path : string) : comp state unit :=
  fun p => match target p with
           | Some _ => Returns tt (set_written (path :: written p) p)
           | None => Throws (error_already_set
                               {| exc_type := "ValueError";
                                  exc_value := "no target loaded" |}) p
           end.

#[export] Instance engine : Engine := {|
  Py := state;
  PyObject := unit;
  scoped_interpreter := unit;
  new_scoped_interpreter := start;
  delete_scoped_interpreter := stop;
  dec_ref := drop_reference;
  AutoMesher := ret tt;
  load_target := load;
  detections := fun _ p => Returns (found p) p;
  generate_refinement := fun _ _ => ret tt;
  export_snappy_dict := fun _ path _ => write path;
  FTetWildGenerator := ret tt;
  generate_refinement_config := fun _ _ _ _ => ret tt;
  export_config := fun _ _ path => write path
|}.

#[export] Instance disk : Files.
Proof.
  refine {| file_exists := fun p path => bool_decide (path ∈ files p) |}.
  intros m path p H. do 2 eexists. simpl. unfold load. rewrite H.
  reflexivity.
Defined.

(** The identity transform moved to (1, 2, 3). *)
Definition pose : array_t :=
  Matrix [ [1; 0; 0; 1]; [0; 1; 0; 2]; [0; 0; 1; 3]; [0; 0; 0; 1] ]%float.

(** A wheel, with a radius. *)
Definition wheel : PyDetection :=
  {| py_feature_id := Value "wheel";
     py_transform := Value pose;
     py_confidence := Value 0.5%float;
     py_region_metadata := Value (Some (Value 0.25%float)) |}.

(** A bolt whose [region_metadata] attribute raises. *)
Definition bolt : PyDetection :=
  {| py_feature_id := Value "bolt";
     py_transform := Value pose;
     py_confidence := Value 0.75%float;
     py_region_metadata :=
       Raises (error_already_set
                 {| exc_type := "AttributeError";
                    exc_value := "'Detection' object has no attribute 'region_metadata'" |}) |}.

(** A process in which "car.stl" exists and no interpreter runs yet. *)
Definition fresh_python (dets : list PyDetection) : state :=
  {| running := false; files := ["car.stl"]; target := None; found := dets;
     written := [] |}.

(** The caller has one array of [n] records, at address 1. *)
Definition boot (dets : list PyDetection) (n : nat) : World :=
  {| detectors := ∅;
     arrays := {[ 1%positive := replicate n zeroed_detection ]};
     python := fresh_python dets |}.

(** The world after a successful [meshmind_create_detector]. *)
Definition session (dets : list PyDetection) (n : nat) : World :=
  match meshmind_create_detector (boot dets n) with
  | Returns _ w => w
  | _ => boot dets n
  end.

Definition handle : MeshMindDetector := Some 1%positive.
Definition buffer : ptr := Some 1%positive.

(** The struct behind [handle] in [session]. *)
Definition new_detector : MeshMindDetector_t :=
  {| guard := tt; mesher := tt; last_error := ""; cached_detections := [] |}.

(** A detection whose [feature_id] attribute raises. *)
Definition broken : PyDetection :=
  {| py_feature_id :=
       Raises (error_already_set
                 {| exc_type := "AttributeError";
                    exc_value := "'Detection' object has no attribute 'feature_id'" |});
     py_transform := Value pose;
     py_confidence := Value 0.5%float;
     py_region_metadata := Value None |}.

(** The world a session on [handle] ends in. *)
Definition after (cs : list call) (w : World) : World :=
  match run_session handle cs w with
  | Returns _ w' | Throws _ w' => w'
  | Undefined => w
  end.

(** Sessions: a car with a wheel and a bolt and an array of three records;
    a bolt alone; a wheel and a broken detection; nothing found. *)
Definition car_session : World := session [wheel; bolt] 3.
Definition bolt_session : World := session [bolt] 1.
Definition broken_session : World := session [wheel; broken] 3.
Definition empty_session : World := session [] 0.

(** The records of the wheel and of the bolt. *)
Definition wheel_record : MeshMindDetection :=
  Eval vm_compute in
    match marshal wheel tt with
    | Returns r _ => r
    | _ => zeroed_detection
    end.
Definition bolt_record : MeshMindDetection :=
  Eval vm_compute in
    match marshal bolt tt with
    | Returns r _ => r
    | _ => zeroed_detection
    end.

End Scripted.

(** ** An engine without [detections] before a load

    As the scripted engine, except that the mesher gets its [detections]
    attribute when a target is loaded: reading it before raises. *)

Module Lazy.

#[export] Instance engine : Engine := {|
  Py := Scripted.state;
  PyObject := unit;
  scoped_interpreter := unit;
  new_scoped_interpreter := Scripted.start;
  delete_scoped_interpreter := Scripted.stop;
  dec_ref := Scripted.drop_reference;
  AutoMesher := ret tt;
  load_target := Scripted.load;
  detections := fun _ p =>
    match Scripted.target p with
    | Some _ => Returns (Scripted.found p) p
    | None =>
        Throws (error_already_set
                  {| exc_type := "AttributeError";
                     exc_value := "'AutoMesher' object has no attribute 'detections'" |})
          p
    end;
  generate_refinement := fun _ _ => ret tt;
  export_snappy_dict := fun _ path _ => Scripted.write path;
  FTetWildGenerator := ret tt;
  generate_refinement_config := fun _ _ _ _ => ret tt;
  export_config := fun _ _ path => Scripted.write path
|}.

(** A handle whose cache holds the wheel of an earlier detection, the
    caller's array that holds it too, and no target loaded. *)
Definition used_detector : MeshMindDetector_t :=
  {| guard := tt; mesher := tt; last_error := "";
     cached_detections := [Scripted.wheel_record] |}.

Definition unloaded_session : World :=
  {| detectors := {[ 1%positive := used_detector ]};
     arrays := {[ 1%positive := [Scripted.wheel_record] ]};
     python := Scripted.set_running true (Scripted.fresh_python []) |}.

End Lazy.

(** ** A machine without the SDK

    As the scripted engine, except that the import of [meshmind.sdk.mesher]
    fails. *)

Module Bare.

#[export] Instance engine : Engine := {|
  Py := Scripted.state;
  PyObject := unit;
  scoped_interpreter := unit;
  new_scoped_interpreter := Scripted.start;
  delete_scoped_interpreter := Scripted.stop;
  dec_ref := Scripted.drop_reference;
  AutoMesher := fun p =>
    Throws (error_already_set
              {| exc_type := "ModuleNotFoundError";
                 exc_value := "No module named 'meshmind'" |}) p;
  load_target := Scripted.load;
  detections := fun _ p => Returns (Scripted.found p) p;
  generate_refinement := fun _ _ => ret tt;
  export_snappy_dict := fun _ path _ => Scripted.write path;
  FTetWildGenerator := ret tt;
  generate_refinement_config := fun _ _ _ _ => ret tt;
  export_config := fun _ _ path => Scripted.write path
|}.


End Bare.

(** ** More cases for the scripted engine *)

Module Cases.
Import Scripted.

(** A detection whose transform is a vector of 16 numbers. *)
Definition flat : PyDetection :=
  {| py_feature_id := Value "flat";
     py_transform := Value (OtherRank 1);
     py_confidence := Value 0.5%float;
     py_region_metadata := Value None |}.

(** Sessions: a wheel and a flat detection and an array of three records;
    a wheel and a bolt and an array of one record. *)
Definition flat_session : World := session [wheel; flat] 3.
Definition short_session : World := session [wheel; bolt] 1.

(** The state a computation ends in. *)
Definition final {St A} (m : comp St A) (s : St) : St :=
  match m s with
  | Returns _ s' | Throws _ s' => s'
  | Undefined => s
  end.


End Cases.

(** ** Specifications

    [guarantees R Q m]: however [m] ends, the states before and after it are
    related by [R], and a value it returns satisfies [Q]. *)
Definition guarantees {St A} (R : relation St) (Q : A -> Prop) (m : comp St A)
    : Prop :=
  forall s, match m s with
            | Returns a s' => R s s' /\ Q a
            | Throws _ s' => R s s'
            | Undefined => True
            end.

Definition any {A} : A -> Prop := fun _ => True.

(** * Properties *)

(** ** Rules for [guarantees] *)

Section Rules.
Context {St : Type} (R : relation St).

Lemma guarantees_ret `{!Reflexive R} {A} (Q : A -> Prop) (a : A) :
  Q a -> guarantees R Q (ret a).
Proof. intros HQ s. simpl. split; [reflexivity | exact HQ]. Qed.

Lemma guarantees_throw `{!Reflexive R} {A} (Q : A -> Prop) (e : exception) :
  guarantees R Q (throw e).
Proof. intros s. simpl. reflexivity. Qed.

Lemma guarantees_undefined {A} (Q : A -> Prop) : guarantees R Q undefined.
Proof. intros s. exact I. Qed.

Lemma guarantees_weaken {A} (Q Q' : A -> Prop) (m : comp St A) :
  guarantees R Q m -> (forall a, Q a -> Q' a) -> guarantees R Q' m.
Proof.
  intros Hm HQ s. specialize (Hm s). destruct (m s); intuition.
Qed.

Lemma guarantees_bind `{!Transitive R} {A B} (Q : A -> Prop) (Q' : B -> Prop)
    (m : comp St A) (k : A -> comp St B) :
  guarantees R Q m -> (forall a, Q a -> guarantees R Q' (k a)) ->
  guarantees R Q' (bind m k).
Proof.
  intros Hm Hk s. unfold bind. specialize (Hm s).
  destruct (m s) as [a s1 | e s1 |]; [| exact Hm | exact I].
  destruct Hm as [H1 Ha]. specialize (Hk a Ha s1).
  destruct (k a s1) as [b s2 | e s2 |]; [| | exact I].
  - destruct Hk as [H2 Hb]. split; [etransitivity; eassumption | exact Hb].
  - etransitivity; eassumption.
Qed.

Lemma guarantees_try_catch `{!Transitive R} {A} (Q : A -> Prop)
    (m : comp St A) (handler : exception -> option (comp St A)) :
  guarantees R Q m ->
  (forall e k, handler e = Some k -> guarantees R Q k) ->
  guarantees R Q (try_catch m handler).
Proof.
  intros Hm Hh s. unfold try_catch. specialize (Hm s).
  destruct (m s) as [a s1 | e s1 |]; [exact Hm | | exact I].
  destruct (handler e) as [k |] eqn:Hk; [| exact Hm].
  specialize (Hh e k Hk s1).
  destruct (k s1) as [b s2 | e2 s2 |]; [| | exact I].
  - destruct Hh as [H2 Hb]. split; [etransitivity; eassumption | exact Hb].
  - etransitivity; eassumption.
Qed.

Lemma guarantees_for_loop `{!PreOrder R} {A} (body : nat -> A -> comp St A)
    (n lo : nat) (a : A) :
  (forall i a, guarantees R any (body i a)) ->
  guarantees R any (for_loop lo n body a).
Proof.
  intros Hbody. revert lo a.
  induction n as [| n IH]; intros lo a; simpl.
  - apply guarantees_ret; [apply _ .. | exact I].
  - eapply guarantees_bind; [apply _ .. | apply Hbody |].
    intros a' _. apply IH.
Qed.

End Rules.


(** ** Inversion of computations *)

Lemma bind_Returns {St A B} (m : comp St A) (k : A -> comp St B) s b s2 :
  bind m k s = Returns b s2 ->
  exists a s1, m s = Returns a s1 /\ k a s1 = Returns b s2.
Proof.
  unfold bind. destruct (m s) as [a s1 | |]; [| discriminate ..].
  intros H. exists a, s1. split; [reflexivity | exact H].
Qed.

Lemma bind_Throws {St A B} (m : comp St A) (k : A -> comp St B) s e s2 :
  bind m k s = Throws e s2 ->
  m s = Throws e s2 \/
  exists a s1, m s = Returns a s1 /\ k a s1 = Throws e s2.
Proof.
  unfold bind. destruct (m s) as [a s1 | e1 s1 |]; [| | discriminate].
  - intros H. right. exists a, s1. split; [reflexivity | exact H].
  - intros [= -> ->]. left. reflexivity.
Qed.

Lemma fetch_Throws {St A} (f : fetched A) (s s' : St) e :
  fetch f s = Throws e s' -> f = Raises e.
Proof. destruct f; simpl; [discriminate |]. intros [= -> _]. reflexivity. Qed.

Lemma fetch_Returns {St A} (f : fetched A) (s s' : St) a :
  fetch f s = Returns a s' -> f = Value a /\ s' = s.
Proof.
  destruct f; simpl; [| discriminate]. intros [= -> ->]. split; reflexivity.
Qed.

(** A property of the loop variable that every turn keeps holds when the loop
    returns. *)
Lemma for_loop_Returns_inv {St A} (P : A -> Prop)
    (body : nat -> A -> comp St A) :
  (forall i a s a' s', P a -> body i a s = Returns a' s' -> P a') ->
  forall n lo a s a' s',
    P a -> for_loop lo n body a s = Returns a' s' -> P a'.
Proof.
  intros Hbody. induction n as [| n IH]; intros lo a s a' s' Ha; simpl.
  - intros [= <- _]. exact Ha.
  - intros H. apply bind_Returns in H as (a1 & s1 & H1 & H2).
    eapply IH; [| exact H2]. eapply Hbody; eassumption.
Qed.

Lemma for_loop_add {St A} (body : nat -> A -> comp St A) n1 n2 lo a s :
  for_loop lo (n1 + n2) body a s =
  bind (for_loop lo n1 body a) (for_loop (lo + n1) n2 body) s.
Proof.
  revert lo a s. induction n1 as [| n1 IH]; intros lo a s; simpl.
  - unfold bind, ret. rewrite Nat.add_0_r. reflexivity.
  - unfold bind. destruct (body lo a s) as [a1 s1 | |]; [| reflexivity ..].
    rewrite IH. unfold bind.
    replace (S lo + n1)%nat with (lo + S n1)%nat by lia. reflexivity.
Qed.

(** ** Marshalling *)

Lemma copy_transform_around rows r0 r u u' :
  for_loop 0 4 (fun r result =>
      for_loop 0 4 (fun c result =>
        v <- unchecked_at rows r c ;;
        ret (set_transform (<[(r * 4 + c)%nat := v]> (transform result)) result))
      result)
    r0 u = Returns r u' ->
  around_transform r0 r.
Proof.
  apply (for_loop_Returns_inv (around_transform r0)).
  - intros i a s a' s' Ha.
    apply (for_loop_Returns_inv (around_transform r0)); [| exact Ha].
    clear. intros c a s a' s' Ha H.
    apply bind_Returns in H as (v & s1 & _ & H). injection H as <- _.
    destruct Ha as (? & ? & ? & ? & ?). unfold around_transform. simpl.
    rewrite length_insert. auto.
  - unfold around_transform. auto.
Qed.

Lemma strncpy_chars_length src n : length (strncpy_chars src n) = n.
Proof.
  revert src. induction n as [| n IH]; intros src; [reflexivity |].
  simpl. destruct src as [| c s].
  - simpl. rewrite length_replicate. reflexivity.
  - destruct (Ascii.eqb c NUL); simpl.
    + rewrite length_replicate. reflexivity.
    + rewrite IH. reflexivity.
Qed.

Lemma marshal_Returns det r u :
  marshal det tt = Returns r u ->
  well_formed r /\ radius r = default 0%float (provided_radius det).
Proof.
  unfold marshal. intros H.
  apply bind_Returns in H as (fid & s1 & Hfid & H).
  apply bind_Returns in H as (arr & s2 & Harr & H).
  apply bind_Returns in H as (rows & s3 & Hrows & H).
  apply bind_Returns in H as (r1 & s4 & Hcopy & H).
  apply bind_Returns in H as (conf & s5 & Hconf & H).
  apply bind_Returns in H as (r2 & s6 & Hrad & H).
  injection H as <- _.
  apply copy_transform_around in Hcopy.
  destruct Hcopy as (Hid & _ & Hpos & Hr0 & Hlen). simpl in Hid, Hpos, Hr0, Hlen.
  assert (Hwf : forall v, well_formed (set_radius v (set_confidence conf
      (set_position (<[2%nat := at_index (transform r1) 11]>
        (<[1%nat := at_index (transform r1) 7]>
          (<[0%nat := at_index (transform r1) 3]> (position r1)))) r1)))).
  { intros v. unfold well_formed. simpl. rewrite Hid, Hpos.
    repeat split.
    - unfold strncpy. rewrite length_app, strncpy_chars_length. reflexivity.
    - unfold strncpy. rewrite lookup_app_r; rewrite strncpy_chars_length;
        [reflexivity | lia].
    - exact Hlen.
    - intros k Hk. unfold at_index. rewrite !nth_lookup.
      destruct (lookup_lt_is_Some_2 (transform r1) (4 * k + 3)) as [x Hx];
        [rewrite Hlen; simpl; lia |].
      destruct k as [| [| [| k]]]; [| | | lia]; simpl in Hx |- *;
        rewrite Hx; reflexivity. }
  unfold try_catch, catch_all in Hrad.
  unfold provided_radius.
  destruct (py_region_metadata det) as [[[v | e] |] | e]; simpl in Hrad;
    injection Hrad as <- _; simpl.
  - split; [apply Hwf | reflexivity].
  - split; [apply Hwf | reflexivity].
  - split; [| exact Hr0].
    specialize (Hwf (radius r1)). destruct r1; exact Hwf.
  - split; [apply Hwf | reflexivity].
Qed.

Section Properties.
Context `{E : Engine}.

(** ** The primitives *)

Section Primitives.
Context (R : relation World).

Lemma guarantees_py {A} (m : comp Py A) :
  (forall w p, R w (set_python p w)) -> guarantees R any (py m).
Proof.
  intros HR w. unfold py.
  destruct (m (python w)); [split; [apply HR | exact I] | apply HR | exact I].
Qed.

Lemma guarantees_local `{!Reflexive R} {A} (m : comp unit A) :
  guarantees R (fun a => m tt = Returns a tt) (local m).
Proof.
  intros w. unfold local.
  destruct (m tt) as [a [] | e [] |]; [split |..]; reflexivity || exact I.
Qed.

Lemma guarantees_deref `{!Reflexive R} (l : loc) : guarantees R any (deref l).
Proof.
  intros w. unfold deref.
  destruct (detectors w !! l); [split; [reflexivity | exact I] | exact I].
Qed.

Lemma guarantees_update (l : loc) f :
  (forall w d, detectors w !! l = Some d ->
     R w (set_detectors (<[l := f d]> (detectors w)) w)) ->
  guarantees R any (update l f).
Proof.
  intros HR w. unfold update.
  destruct (detectors w !! l) as [d |] eqn:Hd; [| exact I].
  split; [apply HR, Hd | exact I].
Qed.

Lemma guarantees_store (b : loc) (i : nat) r :
  (forall w a, arrays w !! b = Some a -> (i < length a)%nat ->
     R w (set_arrays (<[b := <[i := r]> a]> (arrays w)) w)) ->
  guarantees R any (store b i r).
Proof.
  intros HR w. unfold store.
  destruct (arrays w !! b) as [a |] eqn:Ha; [| exact I].
  destruct (decide (i < length a)%nat) as [Hi | Hi]; [| exact I].
  split; [apply HR; assumption | exact I].
Qed.

Lemma guarantees_list_item `{!Reflexive R} (dets : list PyDetection) i :
  guarantees R (fun det => dets !! i = Some det) (list_item dets i).
Proof.
  intros w. unfold list_item.
  destruct (dets !! i); simpl; [split |]; reflexivity.
Qed.

End Primitives.

(** ** The error string across the [try] blocks *)

#[local] Instance same_errors_preorder : PreOrder same_errors.
Proof.
  split.
  - intros w l. reflexivity.
  - intros w1 w2 w3 H12 H23 l. rewrite H23. apply H12.
Qed.

Lemma same_errors_python w p : same_errors w (set_python p w).
Proof. intros l. reflexivity. Qed.

Lemma same_errors_arrays w v : same_errors w (set_arrays v w).
Proof. intros l. reflexivity. Qed.

Lemma same_errors_update w l d f :
  detectors w !! l = Some d -> last_error (f d) = last_error d ->
  same_errors w (set_detectors (<[l := f d]> (detectors w)) w).
Proof.
  intros Hd Hf l'. simpl. destruct (decide (l = l')) as [<- | Hne].
  - rewrite lookup_insert_eq, Hd. simpl. rewrite Hf. reflexivity.
  - rewrite lookup_insert_ne by exact Hne. reflexivity.
Qed.

Lemma same_errors_valid w w' l d :
  same_errors w w' -> detectors w !! l = Some d ->
  exists d', detectors w' !! l = Some d' /\ last_error d' = last_error d.
Proof.
  intros H Hd. specialize (H l). rewrite Hd in H.
  destruct (detectors w' !! l) as [d' |]; [| discriminate].
  injection H as H. exists d'. split; [reflexivity | exact H].
Qed.

Create HintDb errors discriminated.
#[local] Hint Resolve same_errors_python same_errors_arrays : errors.
#[local] Hint Extern 1 (Reflexive same_errors) => apply _ : errors.
#[local] Hint Extern 1 (Transitive same_errors) => apply _ : errors.
#[local] Hint Extern 1 (PreOrder same_errors) => apply _ : errors.

Ltac sequence R :=
  repeat match goal with
  | |- guarantees _ _ (ret _) => apply (guarantees_ret R); [apply _ .. | exact I]
  | |- guarantees _ _ (bind _ _) =>
      eapply (guarantees_bind R); [apply _ .. | | intros ? _]
  | |- guarantees _ _ (py _) =>
      apply (guarantees_py R); intros; solve [auto with errors]
  | |- guarantees _ _ (deref _) => apply (guarantees_deref R)
  | |- guarantees _ _ (for_loop _ _ _ _) =>
      apply (guarantees_for_loop R); [apply _ .. | intros ? ?]
  end.

Lemma detect_step_same_errors l b dets i :
  guarantees same_errors any (detect_step l b dets i).
Proof.
  unfold detect_step.
  eapply guarantees_bind; [apply _ | apply guarantees_list_item; apply _ |].
  intros det _.
  eapply guarantees_bind; [apply _ | apply guarantees_local; apply _ |].
  intros r _.
  eapply guarantees_bind; [apply _ | apply guarantees_store |].
  - intros. apply same_errors_arrays.
  - intros _ _. apply guarantees_update. intros w d Hd.
    apply same_errors_update; [exact Hd | reflexivity].
Qed.

Lemma load_target_try_same_errors l path :
  guarantees same_errors any (load_target_try l path).
Proof. unfold load_target_try. sequence same_errors. Qed.

Lemma detect_try_same_errors l b n :
  guarantees same_errors any (detect_try l b n).
Proof.
  unfold detect_try. sequence same_errors.
  - apply guarantees_update. intros w d Hd.
    apply same_errors_update; [exact Hd | reflexivity].
  - apply detect_step_same_errors.
Qed.

Lemma export_snappy_dict_try_same_errors l path :
  guarantees same_errors any (export_snappy_dict_try l path).
Proof. unfold export_snappy_dict_try. sequence same_errors. Qed.

Lemma export_openfoam_case_try_same_errors l dir f :
  guarantees same_errors any (export_openfoam_case_try l dir f).
Proof. unfold export_openfoam_case_try. sequence same_errors. Qed.

Lemma export_ftetwild_sizing_try_same_errors l path :
  guarantees same_errors any (export_ftetwild_sizing_try l path).
Proof. unfold export_ftetwild_sizing_try. sequence same_errors. Qed.

(** ** Calls and their [try] blocks *)

Lemma run_call_try_block l c :
  run_call (Some l) c =
  match try_block l c with
  | Some (body, code) => try_catch body (on_python_error l code)
  | None =>
      ret (match c with
           | AddTemplate (Some _) _ => MESHMIND_SUCCESS
           | _ => MESHMIND_ERROR_INVALID_PARAM
           end)
  end.
Proof.
  destruct c as [[p |] | [p |] f | [b |] n | [p |] | [p |] f | [p |]];
    try reflexivity.
  simpl. destruct (n <=? 0); reflexivity.
Qed.

Lemma try_block_same_errors l c body code :
  try_block l c = Some (body, code) ->
  guarantees same_errors any body /\ code < 0.
Proof.
  destruct c as [[p |] | [p |] f | [b |] n | [p |] | [p |] f | [p |]];
    simpl; try discriminate.
  - intros [= <- <-]. split; [apply load_target_try_same_errors | reflexivity].
  - destruct (n <=? 0); [discriminate |]. intros [= <- <-].
    split; [apply detect_try_same_errors | reflexivity].
  - intros [= <- <-].
    split; [apply export_snappy_dict_try_same_errors | reflexivity].
  - intros [= <- <-].
    split; [apply export_openfoam_case_try_same_errors | reflexivity].
  - intros [= <- <-].
    split; [apply export_ftetwild_sizing_try_same_errors | reflexivity].
Qed.

Lemma get_error_valid w l d :
  valid w l d -> meshmind_get_error (Some l) w = Returns (last_error d) w.
Proof.
  intros Hd. unfold meshmind_get_error, bind, deref. rewrite Hd. reflexivity.
Qed.

(** What the [catch] clause does with a Python exception. *)
Lemma catch_python_error body l code w msg w1 d1 :
  body w = Throws (error_already_set msg) w1 ->
  valid w1 l d1 ->
  try_catch body (on_python_error l code) w =
  Returns code
    (set_detectors (<[l := set_last_error msg d1]> (detectors w1)) w1).
Proof.
  intros Hbody Hd1. unfold try_catch. rewrite Hbody. simpl.
  unfold bind, update. rewrite Hd1. reflexivity.
Qed.

(** How a call under a [catch] clause can return. *)
Lemma try_catch_Returns body l code w d r w' :
  guarantees same_errors any body ->
  valid w l d ->
  try_catch body (on_python_error l code) w = Returns r w' ->
  (body w = Returns r w' /\ same_errors w w') \/
  (exists msg w1 d1,
     body w = Throws (error_already_set msg) w1 /\ same_errors w w1 /\
     valid w1 l d1 /\ r = code /\
     w' = set_detectors (<[l := set_last_error msg d1]> (detectors w1)) w1).
Proof.
  intros Hg Hd. specialize (Hg w). unfold try_catch.
  destruct (body w) as [r1 w1 | [msg | msg] w1 |] eqn:Hbody; simpl.
  - intros [= <- <-]. left. split; [reflexivity | apply Hg].
  - destruct (same_errors_valid _ _ _ _ Hg Hd) as (d1 & Hd1 & _).
    unfold bind, update. rewrite Hd1. simpl. intros [= <- <-].
    right. exists msg, w1, d1. auto.
  - discriminate.
  - discriminate.
Qed.

(** A call that succeeds changes no error string. *)
Lemma success_same_errors l d c w r w' :
  valid w l d -> run_call (Some l) c w = Returns r w' -> 0 <= r ->
  same_errors w w'.
Proof.
  intros Hd Hrun Hr. rewrite run_call_try_block in Hrun.
  destruct (try_block l c) as [[body code] |] eqn:Hc.
  - destruct (try_block_same_errors _ _ _ _ Hc) as [Hg Hcode].
    destruct (try_catch_Returns _ _ _ _ _ _ _ Hg Hd Hrun)
      as [[_ H] | (msg & w1 & d1 & _ & _ & _ & -> & _)]; [exact H | lia].
  - injection Hrun as _ <-. reflexivity.
Qed.

(** A call changes the error string of its own handle at most. *)
Lemma run_call_frame l d c w r w' :
  valid w l d -> run_call (Some l) c w = Returns r w' ->
  (exists d', valid w' l d') /\
  forall l', l' <> l ->
    last_error <$> detectors w' !! l' = last_error <$> detectors w !! l'.
Proof.
  intros Hd Hrun. rewrite run_call_try_block in Hrun.
  destruct (try_block l c) as [[body code] |] eqn:Hc.
  - destruct (try_block_same_errors _ _ _ _ Hc) as [Hg Hcode].
    destruct (try_catch_Returns _ _ _ _ _ _ _ Hg Hd Hrun)
      as [[_ H] | (msg & w1 & d1 & _ & H & Hd1 & _ & ->)].
    + destruct (same_errors_valid _ _ _ _ H Hd) as (d' & Hd' & _).
      split; [exists d'; exact Hd' | intros l' _; apply H].
    + split.
      * eexists. unfold valid. simpl. apply lookup_insert_eq.
      * intros l' Hne. simpl. rewrite lookup_insert_ne by congruence.
        apply H.
  - injection Hrun as _ <-. split; [exists d; exact Hd | reflexivity].
Qed.

(** ** The loop of [meshmind_detect] *)

Lemma to_int_small n : 0 <= n <= INT_MAX -> to_int n = n.
Proof.
  intros Hn. unfold to_int, INT_MAX in *.
  rewrite Z.mod_small by lia.
  destruct (n <=? 2147483647) eqn:Hle; [reflexivity | lia].
Qed.

Lemma set_cached_detections_id d :
  set_cached_detections (cached_detections d) d = d.
Proof. destruct d; reflexivity. Qed.

Lemma wrote_nil l b d a lo w :
  valid w l d -> arrays w !! b = Some a -> wrote l b d a lo [] w = w.
Proof.
  intros Hd Ha. unfold wrote. simpl.
  rewrite app_nil_r, set_cached_detections_id, Nat.add_0_r, take_drop.
  rewrite !insert_id by assumption. destruct w; reflexivity.
Qed.

Lemma detect_step_Returns l b dets i w d a det r :
  valid w l d -> arrays w !! b = Some a -> (i < length a)%nat ->
  dets !! i = Some det -> marshal det tt = Returns r tt ->
  detect_step l b dets i w = Returns tt (wrote l b d a i [r] w).
Proof.
  intros Hd Ha Hi Hdet Hr.
  unfold detect_step, bind, list_item, local, store, update.
  rewrite Hdet. simpl. rewrite Hr, Ha.
  destruct (decide (i < length a)%nat) as [_ | Hn]; [| contradiction].
  simpl. rewrite Hd. unfold wrote, set_detectors. simpl.
  do 3 f_equal. rewrite insert_take_drop by exact Hi.
  rewrite Nat.add_1_r. reflexivity.
Qed.

(** The loop stores what it marshals, as long as the array has room. *)
Lemma detect_loop_runs l b dets rs :
  forall lo w d a,
    valid w l d -> arrays w !! b = Some a ->
    marshalled (take (length rs) (drop lo dets)) rs ->
    (lo + length rs <= length a)%nat ->
    for_loop lo (length rs) (fun i _ => detect_step l b dets i) tt w =
    Returns tt (wrote l b d a lo rs w).
Proof.
  induction rs as [| r rs IH]; intros lo w d a Hd Ha Hrs Hlen.
  - simpl. rewrite wrote_nil by assumption. reflexivity.
  - simpl in Hrs, Hlen |- *.
    destruct (drop lo dets) as [| det rest] eqn:Hdrop;
      [inversion Hrs |]. simpl in Hrs.
    apply Forall2_cons in Hrs as [Hr Hrs].
    assert (Hdet : dets !! lo = Some det).
    { pose proof (lookup_drop dets lo 0) as H.
      rewrite Hdrop, Nat.add_0_r in H. symmetry. exact H. }
    assert (Hrest : drop (S lo) dets = rest).
    { pose proof (drop_drop dets 1 lo) as H.
      rewrite Hdrop, Nat.add_1_r in H. symmetry. exact H. }
    unfold bind at 1.
    rewrite (detect_step_Returns l b dets lo w d a det r) by (assumption || lia).
    rewrite (IH (S lo) _ (set_cached_detections (cached_detections d ++ [r]) d)
               (take lo a ++ [r] ++ drop (lo + 1) a)).
    + f_equal. unfold wrote. simpl. rewrite !insert_insert_eq.
      rewrite <- app_assoc. simpl. f_equal. f_equal.
      assert (Hl : length (take lo a ++ [r]) = S lo)
        by (rewrite length_app, length_take; simpl; lia).
      rewrite (cons_middle r (take lo a)), (app_assoc (take lo a) [r]).
      rewrite take_app_length' by (symmetry; exact Hl).
      rewrite drop_app_ge by lia. rewrite Hl, drop_drop.
      rewrite <- app_assoc. simpl. do 4 f_equal. lia.
    + unfold valid, wrote. simpl. apply lookup_insert_eq.
    + unfold wrote. simpl. rewrite lookup_insert_eq. reflexivity.
    + rewrite Hrest. exact Hrs.
    + rewrite !length_app, length_take, length_drop. simpl. lia.
Qed.

(** The loop stops at the first detection whose marshalling throws. *)
Lemma detect_loop_throws l b dets rs det e k :
  forall w d a,
    valid w l d -> arrays w !! b = Some a ->
    marshalled (take (length rs) dets) rs ->
    (length rs <= length a)%nat ->
    dets !! length rs = Some det -> marshal det tt = Throws e tt ->
    for_loop 0 (length rs + S k) (fun i _ => detect_step l b dets i) tt w =
    Throws e (wrote l b d a 0 rs w).
Proof.
  intros w d a Hd Ha Hrs Hlen Hdet He.
  rewrite for_loop_add. unfold bind at 1.
  rewrite (detect_loop_runs l b dets rs 0 w d a) by assumption.
  simpl. unfold bind at 1. unfold detect_step, bind, list_item, local.
  rewrite Hdet. simpl. rewrite He. reflexivity.
Qed.

(** Whenever the loop returns, the cache is the part of the array written
    so far. *)
Lemma detect_loop_cache l b dets :
  forall n lo w d w',
    valid w l d ->
    length (cached_detections d) = lo ->
    cached_detections d = take lo (default [] (arrays w !! b)) ->
    for_loop lo n (fun i _ => detect_step l b dets i) tt w = Returns tt w' ->
    exists d',
      valid w' l d' /\
      length (cached_detections d') = (lo + n)%nat /\
      cached_detections d' = take (lo + n) (default [] (arrays w' !! b)).
Proof.
  induction n as [| n IH]; intros lo w d w' Hd Hlen Hcache; simpl.
  - intros [= <-]. exists d. rewrite Nat.add_0_r. auto.
  - intros H. apply bind_Returns in H as ([] & w1 & Hstep & Hloop).
    unfold detect_step in Hstep.
    apply bind_Returns in Hstep as (det & w0 & Hitem & Hstep).
    unfold list_item in Hitem.
    destruct (dets !! lo); [| discriminate]. injection Hitem as _ <-.
    unfold local at 1 in Hstep. unfold bind at 1 in Hstep.
    destruct (marshal det tt) as [r [] | |]; [| discriminate ..].
    unfold bind, store, update in Hstep.
    destruct (arrays w !! b) as [a |] eqn:Ha; [| discriminate].
    destruct (decide (lo < length a)%nat) as [Hlo | _]; [| discriminate].
    simpl in Hstep, Hcache. rewrite Hd in Hstep. injection Hstep as <-.
    replace (lo + S n)%nat with (S lo + n)%nat by lia.
    eapply IH; [| | | exact Hloop].
    + unfold valid. simpl. apply lookup_insert_eq.
    + simpl. rewrite length_app, Hlen. simpl. lia.
    + simpl. rewrite lookup_insert_eq. simpl.
      rewrite (take_S_r _ _ r) by (apply list_lookup_insert_eq; exact Hlo).
      rewrite take_insert_ge by lia. rewrite Hcache. reflexivity.
Qed.

(** ** What [meshmind_detect] writes *)

#[local] Instance written_preorder dets b : PreOrder (written dets b).
Proof.
  split.
  - intros w j r H. left. exact H.
  - intros w1 w2 w3 H12 H23 j r H.
    destruct (H23 j r H) as [H2 | H2]; [apply H12, H2 | right; exact H2].
Qed.

Lemma written_python dets b w p : written dets b w (set_python p w).
Proof. intros j r H. left. exact H. Qed.

Lemma written_detectors dets b w v : written dets b w (set_detectors v w).
Proof. intros j r H. left. exact H. Qed.

Lemma written_store dets b w a i det r :
  arrays w !! b = Some a -> dets !! i = Some det ->
  marshal det tt = Returns r tt ->
  written dets b w (set_arrays (<[b := <[i := r]> a]> (arrays w)) w).
Proof.
  intros Ha Hdet Hr j r'. unfold entry. simpl.
  rewrite lookup_insert_eq, Ha. simpl.
  destruct (decide (i = j)) as [<- | Hne].
  - intros H. right. exists det. split; [exact Hdet |].
    destruct (decide (i < length a)%nat) as [Hi | Hi].
    + rewrite list_lookup_insert_eq in H by exact Hi. congruence.
    + rewrite list_insert_ge in H by lia.
      apply lookup_lt_Some in H. lia.
  - rewrite list_lookup_insert_ne by exact Hne. intros H. left. exact H.
Qed.

Lemma detect_step_written l b dets i :
  guarantees (written dets b) any (detect_step l b dets i).
Proof.
  unfold detect_step.
  eapply guarantees_bind; [apply _ | apply guarantees_list_item; apply _ |].
  intros det Hdet.
  eapply guarantees_bind; [apply _ | apply guarantees_local; apply _ |].
  intros r Hr.
  eapply guarantees_bind; [apply _ | apply guarantees_store |].
  - intros w a Ha _. cbv beta in Hdet, Hr.
    apply (written_store dets b w a i det r Ha Hdet Hr).
  - intros _ _. apply guarantees_update. intros w d Hd.
    apply written_detectors.
Qed.


Lemma detect_loop_Returns l b dets :
  forall n lo w d w',
    valid w l d ->
    for_loop lo n (fun i _ => detect_step l b dets i) tt w = Returns tt w' ->
    exists rs,
      length rs = n /\ marshalled (take n (drop lo dets)) rs /\
      (n = 0%nat \/
       exists a, arrays w !! b = Some a /\ (lo + n <= length a)%nat).
Proof.
  induction n as [| n IH]; intros lo w d w' Hd; simpl.
  - intros _. exists []. split; [reflexivity | split; [constructor | auto]].
  - intros H. apply bind_Returns in H as ([] & w1 & Hstep & Hloop).
    pose proof Hstep as Hstep'. unfold detect_step in Hstep.
    apply bind_Returns in Hstep as (det & w0 & Hitem & Hstep).
    unfold list_item in Hitem.
    destruct (dets !! lo) as [det' |] eqn:Hdet; [| discriminate].
    injection Hitem as -> <-.
    unfold local at 1 in Hstep. unfold bind at 1 in Hstep.
    destruct (marshal det tt) as [r [] | |] eqn:Hr; [| discriminate ..].
    unfold bind, store in Hstep.
    destruct (arrays w !! b) as [a |] eqn:Ha; [| discriminate].
    destruct (decide (lo < length a)%nat) as [Hlo | _]; [| discriminate].
    clear Hstep.
    rewrite (detect_step_Returns l b dets lo w d a det r) in Hstep'
      by assumption.
    injection Hstep' as <-.
    destruct (IH (S lo) (wrote l b d a lo [r] w)
                (set_cached_detections (cached_detections d ++ [r]) d) w')
      as (rs & Hlen & Hrs & Hroom); [| exact Hloop |].
    { unfold valid, wrote. simpl. apply lookup_insert_eq. }
    exists (r :: rs). split; [simpl; congruence |]. split.
    + rewrite (drop_S _ _ _ Hdet). simpl. constructor; assumption.
    + right. exists a. split; [reflexivity |].
      destruct Hroom as [-> | (a1 & Ha1 & Hle)]; [lia |].
      unfold wrote in Ha1. simpl in Ha1. rewrite lookup_insert_eq in Ha1.
      injection Ha1 as <-.
      rewrite length_app, length_take in Hle. simpl in Hle.
      rewrite length_drop in Hle. lia.
Qed.

(** ** Lemmas for the claims *)

(** What the [try] block of [meshmind_detect] does up to its loop. *)
Lemma detect_try_unfold l b c w d dets p :
  valid w l d ->
  detections (mesher d) (python w) = Returns dets p ->
  detect_try l b c w =
  (let count := Z.min (to_int (Z.of_nat (length dets))) c in
   for_loop 0 (Z.to_nat count) (fun i _ => detect_step l b dets i) tt ;;
   ret count)
    (set_detectors (<[l := set_cached_detections [] d]> (detectors w))
       (set_python p w)).
Proof.
  intros Hd Hdets. unfold detect_try, bind at 1, deref. rewrite Hd.
  unfold bind at 1, py. rewrite Hdets.
  unfold bind at 1, update. simpl. rewrite Hd. reflexivity.
Qed.

(** How [meshmind_detect] can return on a valid handle. *)
Lemma detect_Returns l b c w d r w' :
  valid w l d ->
  meshmind_detect (Some l) (Some b) c w = Returns r w' ->
  (c <= 0 /\ r = MESHMIND_ERROR_INVALID_PARAM /\ w' = w) \/
  (0 < c /\ detect_try l b c w = Returns r w') \/
  (0 < c /\ r = MESHMIND_ERROR_DETECT /\
   exists msg w1, detect_try l b c w = Throws (error_already_set msg) w1).
Proof.
  intros Hd. unfold meshmind_detect.
  destruct (c <=? 0) eqn:Hc.
  - intros [= <- <-]. left. split; [lia | auto].
  - intros H. right.
    destruct (try_catch_Returns _ _ _ _ _ _ _
                (detect_try_same_errors l b c) Hd H)
      as [[Hb _] | (msg & w1 & d1 & Hb & _ & _ & -> & _)].
    + left. split; [lia | exact Hb].
    + right. split; [lia | split; [reflexivity | eauto]].
Qed.

(** However the [try] block of [meshmind_detect] ends, the array holds old
    entries and marshalled records only. *)
Lemma detect_try_written l b c w d dets p :
  valid w l d ->
  detections (mesher d) (python w) = Returns dets p ->
  match detect_try l b c w with
  | Returns _ w1 | Throws _ w1 => written dets b w w1
  | Undefined => True
  end.
Proof.
  intros Hd Hdets. rewrite (detect_try_unfold l b c w d dets p Hd Hdets).
  cbv zeta.
  set (w2 := set_detectors _ _).
  assert (H2 : written dets b w w2).
  { etransitivity; [apply (written_python dets b w p) |].
    apply written_detectors. }
  assert (Hg : guarantees (written dets b) any
            (for_loop 0
               (Z.to_nat (Z.min (to_int (Z.of_nat (length dets))) c))
               (fun i _ => detect_step l b dets i) tt ;;
             ret (Z.min (to_int (Z.of_nat (length dets))) c))).
  { eapply guarantees_bind; [apply _ | |].
    - apply guarantees_for_loop; [apply _ |].
      intros i []. apply detect_step_written.
    - intros _ _. apply guarantees_ret; [apply _ | exact I]. }
  specialize (Hg w2).
  match type of Hg with match ?o with _ => _ end =>
    destruct o as [r w1 | e w1 |]; [| | exact I]
  end.
  - etransitivity; [exact H2 | apply Hg].
  - etransitivity; [exact H2 | exact Hg].
Qed.

Lemma reports_python_error body l code w msg w1 d1 :
  body w = Throws (error_already_set msg) w1 -> valid w1 l d1 ->
  reports (try_catch body (on_python_error l code)) l code msg w.
Proof.
  intros Hbody Hd1. eexists. split.
  - apply (catch_python_error _ _ _ _ _ _ _ Hbody Hd1).
  - unfold meshmind_get_error, bind, deref. simpl.
    rewrite lookup_insert_eq. reflexivity.
Qed.

Lemma marshal_raises_feature_id det e :
  py_feature_id det = Raises e -> marshal det tt = Throws e tt.
Proof. intros H. unfold marshal, bind. rewrite H. reflexivity. Qed.

Lemma marshal_raises_transform det id e :
  py_feature_id det = Value id -> py_transform det = Raises e ->
  marshal det tt = Throws e tt.
Proof. intros H1 H2. unfold marshal, bind. rewrite H1, H2. reflexivity. Qed.

Lemma for_loop_no_throw {St A} (body : nat -> A -> comp St A) :
  (forall i a s e s', body i a s <> Throws e s') ->
  forall n lo a s e s', for_loop lo n body a s <> Throws e s'.
Proof.
  intros Hbody. induction n as [| n IH]; intros lo a s e s'; simpl.
  - discriminate.
  - unfold bind. destruct (body lo a s) as [a1 s1 | e1 s1 |] eqn:Hb.
    + apply IH.
    + destruct (Hbody _ _ _ _ _ Hb).
    + discriminate.
Qed.

(** [marshal] ends in a Python exception only when the read of
    [feature_id], of [transform] or of [confidence] raised it. *)
Lemma marshal_Throws_python det msg u :
  marshal det tt = Throws (error_already_set msg) u ->
  py_feature_id det = Raises (error_already_set msg) \/
  py_transform det = Raises (error_already_set msg) \/
  py_confidence det = Raises (error_already_set msg).
Proof.
  unfold marshal. intros H.
  apply bind_Throws in H as [H | (id & s1 & _ & H)];
    [left; apply (fetch_Throws _ _ _ _ H) |].
  apply bind_Throws in H as [H | (arr & s2 & _ & H)];
    [right; left; apply (fetch_Throws _ _ _ _ H) |].
  apply bind_Throws in H as [H | (rows & s3 & _ & H)];
    [destruct arr; discriminate |].
  apply bind_Throws in H as [H | (r1 & s4 & _ & H)].
  { exfalso. refine (for_loop_no_throw _ _ _ _ _ _ _ _ H).
    intros i a s e s'. refine (for_loop_no_throw _ _ _ _ _ _ _ _).
    intros c a' s0 e0 s0'. unfold bind, unchecked_at.
    destruct (rows !! i ≫= _); simpl; discriminate. }
  apply bind_Throws in H as [H | (conf & s5 & _ & H)];
    [right; right; apply (fetch_Throws _ _ _ _ H) |].
  apply bind_Throws in H as [H | (r2 & s6 & _ & H)]; [| discriminate].
  unfold try_catch, catch_all, bind in H.
  destruct (py_region_metadata det) as [[[v | e] |] | e]; discriminate.
Qed.

(** A raise in the look-up of the radius is caught: the record is the one of
    a detection without metadata. *)
Lemma marshal_radius_caught det e :
  py_region_metadata det = Raises e ->
  marshal det tt = marshal (without_metadata det) tt.
Proof.
  intros Hmeta. unfold marshal, bind.
  cbn [py_feature_id py_transform py_confidence py_region_metadata
       without_metadata].
  destruct (fetch (py_feature_id det) tt) as [id s1 | |]; [| reflexivity ..].
  destruct (fetch (py_transform det) s1) as [arr s2 | |]; [| reflexivity ..].
  destruct (unchecked2 arr s2) as [rows s3 | |]; [| reflexivity ..].
  match goal with
  | |- context [for_loop 0 4 ?body ?a s3] =>
      destruct (for_loop 0 4 body a s3) as [r1 s4 | |] eqn:Hloop;
        [| reflexivity ..]
  end.
  apply copy_transform_around in Hloop as (_ & _ & _ & Hrad & _).
  destruct (fetch (py_confidence det) s4) as [conf s5 | |]; [| reflexivity ..].
  rewrite Hmeta. unfold try_catch, catch_all, fetch, throw, ret.
  do 2 f_equal. simpl in Hrad. destruct r1; simpl in *.
  unfold set_radius, set_confidence, set_position. simpl. rewrite Hrad.
  reflexivity.
Qed.

(** So is a raise in the conversion of [metadata["radius"]]. *)
Lemma marshal_radius_conversion_caught det e :
  py_region_metadata det = Value (Some (Raises e)) ->
  marshal det tt = marshal (without_metadata det) tt.
Proof.
  intros Hmeta. unfold marshal, bind.
  cbn [py_feature_id py_transform py_confidence py_region_metadata
       without_metadata].
  destruct (fetch (py_feature_id det) tt) as [id s1 | |]; [| reflexivity ..].
  destruct (fetch (py_transform det) s1) as [arr s2 | |]; [| reflexivity ..].
  destruct (unchecked2 arr s2) as [rows s3 | |]; [| reflexivity ..].
  match goal with
  | |- context [for_loop 0 4 ?body ?a s3] =>
      destruct (for_loop 0 4 body a s3) as [r1 s4 | |] eqn:Hloop;
        [| reflexivity ..]
  end.
  apply copy_transform_around in Hloop as (_ & _ & _ & Hrad & _).
  destruct (fetch (py_confidence det) s4) as [conf s5 | |]; [| reflexivity ..].
  rewrite Hmeta. unfold try_catch, catch_all, fetch, throw, ret.
  do 2 f_equal. simpl in Hrad. destruct r1; simpl in *.
  unfold set_radius, set_confidence, set_position. simpl. rewrite Hrad.
  reflexivity.
Qed.

(** The string of a Python exception is never empty. *)
Lemma error_string_nonempty err : error_string err <> "".
Proof.
  unfold error_string. destruct (exc_type err); simpl; discriminate.
Qed.

(** Running a [try] block up to the engine call that raises. *)
Ltac raise_in Hd :=
  unfold bind, deref, py; simpl;
  repeat (first [rewrite Hd | match goal with
                              | H : _ = Returns _ _ |- _ => rewrite H
                              | H : _ = Throws _ _ |- _ => rewrite H
                              end]; simpl);
  reflexivity.

(** ** The claims *)

(** C1, amended: for a capacity [c >= 1] and an engine list of [m] detections
    ([m] within [int]) whose first [min c m] entries marshal to the records
    [rs], [meshmind_detect] on a valid handle and an array with room for
    them returns [min c m], never more than [c] and never negative, having
    put exactly [rs] at the front of the array (the rest of the array is
    untouched) and made them the cache.  With [m = 0] it returns 0 and the
    array is as before.  For every capacity [c' >= 0], whatever the call
    returns is at most [c']. *)
Theorem detect_writes_min (w : World) (l b : loc) (d : MeshMindDetector_t)
    (a : list MeshMindDetection) (c : Z) (dets : list PyDetection) (p : Py)
    (rs : list MeshMindDetection) :
  let m := Z.of_nat (length dets) in
  let n := Z.to_nat (Z.min c m) in
  valid w l d ->
  arrays w !! b = Some a ->
  detections (mesher d) (python w) = Returns dets p ->
  1 <= c ->
  m <= INT_MAX ->
  marshalled (take n dets) rs ->
  (n <= length a)%nat ->
  meshmind_detect (Some l) (Some b) c w =
    Returns (Z.min c m)
      {| detectors := <[l := set_cached_detections rs d]> (detectors w);
         arrays := <[b := rs ++ drop n a]> (arrays w);
         python := p |} /\
  length rs = n /\
  0 <= Z.min c m <= c /\
  (m = 0 ->
   Z.min c m = 0 /\ rs = [] /\ <[b := rs ++ drop n a]> (arrays w) = arrays w) /\
  (forall c' r w',
     0 <= c' -> meshmind_detect (Some l) (Some b) c' w = Returns r w' ->
     r <= c').
Proof.
  intros m n Hd Ha Hdets Hc Hm Hrs Hroom.
  assert (Hn : length rs = n).
  { apply Forall2_length in Hrs. rewrite <- Hrs, length_take. subst n m. lia. }
  split; [| split; [exact Hn | split; [lia | split]]]; cycle 2.
  { intros c' r w' Hc' Hrun.
    destruct (detect_Returns _ _ _ _ _ _ _ Hd Hrun)
      as [(_ & -> & _) | [[Hpos Htry] | (Hpos & -> & _)]];
      [unfold MESHMIND_ERROR_INVALID_PARAM; lia |
       | unfold MESHMIND_ERROR_DETECT; lia].
    rewrite (detect_try_unfold l b c' w d dets p Hd Hdets) in Htry.
    cbv zeta in Htry.
    apply bind_Returns in Htry as ([] & w3 & _ & Hret).
    injection Hret as <- _. lia. }
  - unfold meshmind_detect.
    destruct (c <=? 0) eqn:Hle; [lia |].
    unfold try_catch. rewrite (detect_try_unfold l b c w d dets p Hd Hdets).
    cbv zeta. rewrite to_int_small by (fold m; lia).
    fold m. rewrite (Z.min_comm m c). fold n. rewrite <- Hn.
    unfold bind at 1.
    rewrite (detect_loop_runs l b dets rs 0 _ (set_cached_detections [] d) a).
    + simpl. unfold ret, wrote. simpl. rewrite !insert_insert_eq.
      rewrite Hn. reflexivity.
    + unfold valid. simpl. apply lookup_insert_eq.
    + simpl. exact Ha.
    + rewrite Hn. simpl. exact Hrs.
    + rewrite Hn. simpl. exact Hroom.
  - intros H0. assert (n = 0%nat) as Hn0 by (subst n; lia).
    rewrite Hn0 in Hn. destruct rs; [| discriminate].
    rewrite Hn0. simpl. rewrite insert_id by exact Ha.
    split; [lia | split; reflexivity].
Qed.

(** C2: a null handle never reaches the engine.  Each status-returning entry
    point returns [MESHMIND_ERROR_INVALID_PARAM] (-5) whatever its other
    arguments are and leaves the whole state as it was; destroying the null
    handle does nothing; the error accessor returns a fixed string. *)
Theorem null_handle_rejected (w : World) :
  MESHMIND_ERROR_INVALID_PARAM = -5 /\
  (forall p, meshmind_load_target nullptr p w
             = Returns MESHMIND_ERROR_INVALID_PARAM w) /\
  (forall p f, meshmind_add_template nullptr p f w
               = Returns MESHMIND_ERROR_INVALID_PARAM w) /\
  (forall r n, meshmind_detect nullptr r n w
               = Returns MESHMIND_ERROR_INVALID_PARAM w) /\
  (forall p, meshmind_export_snappy_dict nullptr p w
             = Returns MESHMIND_ERROR_INVALID_PARAM w) /\
  (forall p f, meshmind_export_openfoam_case nullptr p f w
               = Returns MESHMIND_ERROR_INVALID_PARAM w) /\
  (forall p, meshmind_export_ftetwild_sizing nullptr p w
             = Returns MESHMIND_ERROR_INVALID_PARAM w) /\
  meshmind_destroy_detector nullptr w = Returns tt w /\
  meshmind_get_error nullptr w = Returns "Invalid detector handle" w.
Proof. repeat split. Qed.

(** C3, amended: a call that succeeds leaves the error string alone.  After
    any session on a valid handle, [meshmind_get_error] returns the string it
    returned right after the most recent call that failed, however many
    calls have succeeded since, and the string the handle started with
    (empty for a fresh handle) if no call failed. *)
Theorem get_error_after_session (cs : list call) :
  forall (w w' : World) (l : loc) (d : MeshMindDetector_t)
         (log : list (Z * string)),
    valid w l d ->
    run_session (Some l) cs w = Returns log w' ->
    meshmind_get_error (Some l) w'
    = Returns (last_failure (last_error d) log) w'.
Proof.
  induction cs as [| c cs IH]; intros w w' l d log Hd H.
  - injection H as <- <-. apply get_error_valid, Hd.
  - cbn [run_session] in H.
    apply bind_Returns in H as (r & w1 & Hcall & H).
    apply bind_Returns in H as (e & w1' & Hget & H).
    apply bind_Returns in H as (log' & w2 & Hrest & H).
    injection H as <- <-.
    destruct (run_call_frame _ _ _ _ _ _ Hd Hcall) as [[d1 Hd1] _].
    rewrite (get_error_valid _ _ _ Hd1) in Hget. injection Hget as <- <-.
    rewrite (IH _ _ _ _ _ Hd1 Hrest). simpl.
    destruct (r <? 0) eqn:Hr; [reflexivity |].
    assert (Hsame : same_errors w w1)
      by (eapply success_same_errors; [exact Hd | exact Hcall | lia]).
    destruct (same_errors_valid _ _ _ _ Hsame Hd) as (d1' & Hd1' & Herr).
    unfold valid in Hd1. rewrite Hd1 in Hd1'. injection Hd1' as <-.
    rewrite Herr. reflexivity.
Qed.

(** C4: on a non-null handle and a non-null path, [meshmind_add_template]
    returns [MESHMIND_SUCCESS] (0) for every path and every identifier and
    changes nothing: neither the detector structs nor the engine.  Whatever
    runs next (a detection, say) runs exactly as if the call had not been
    made. *)
Theorem add_template_registers_nothing (w : World) (l : loc) (path : string)
    (id : c_string) :
  MESHMIND_SUCCESS = 0 /\
  meshmind_add_template (Some l) (Some path) id w = Returns MESHMIND_SUCCESS w /\
  forall (results : ptr) (max_results : Z),
    (meshmind_add_template (Some l) (Some path) id ;;
     meshmind_detect (Some l) results max_results) w
    = meshmind_detect (Some l) results max_results w.
Proof. repeat split. Qed.

(** C5, amended: the codes are -1 (init), -2 (load), -3 (detect), -4 (export)
    and -5 (invalid parameter).  On a
    valid handle, when a call of the engine made by [meshmind_load_target],
    [meshmind_detect] or an export entry point raises a Python exception
    with message [msg], the entry point returns its status and the error
    accessor returns [msg] afterwards, which is not the empty string.
    For [meshmind_detect] this covers the read of [detections] and the
    marshalling of a detection within the count; [marshal] throws for a raise
    while reading [feature_id], [transform] or [confidence], and not for one
    in the look-up of the radius, be it in the read of [region_metadata] or
    in the conversion of its "radius": that one is caught, and the detection
    is marshalled as if it had no metadata (radius 0).  In particular
    [meshmind_load_target] on a path at which no file exists returns the
    negative status -2, and the accessor returns a non-empty string
    afterwards. *)
Theorem engine_error_reported `{F : !Files} (w : World) (l : loc)
    (d : MeshMindDetector_t) (msg : python_error) :
  valid w l d ->
  (MESHMIND_ERROR_INIT = -1 /\ MESHMIND_ERROR_LOAD = -2 /\
   MESHMIND_ERROR_DETECT = -3 /\ MESHMIND_ERROR_EXPORT = -4 /\
   MESHMIND_ERROR_INVALID_PARAM = -5) /\
  error_string msg <> "" /\
  (forall path,
     file_exists (python w) path = false ->
     exists err : python_error,
       reports (meshmind_load_target (Some l) (Some path)) l
         MESHMIND_ERROR_LOAD err w /\
       MESHMIND_ERROR_LOAD < 0 /\ error_string err <> "") /\
  (forall path p,
     load_target (mesher d) path (python w)
       = Throws (error_already_set msg) p ->
     reports (meshmind_load_target (Some l) (Some path)) l
       MESHMIND_ERROR_LOAD msg w) /\
  (forall b n p,
     0 < n ->
     detections (mesher d) (python w) = Throws (error_already_set msg) p ->
     reports (meshmind_detect (Some l) (Some b) n) l
       MESHMIND_ERROR_DETECT msg w) /\
  (forall b n p dets a rs det,
     0 < n ->
     detections (mesher d) (python w) = Returns dets p ->
     arrays w !! b = Some a ->
     marshalled (take (length rs) dets) rs ->
     (length rs <= length a)%nat ->
     (length rs < Z.to_nat (Z.min (to_int (Z.of_nat (length dets))) n))%nat ->
     dets !! length rs = Some det ->
     marshal det tt = Throws (error_already_set msg) tt ->
     reports (meshmind_detect (Some l) (Some b) n) l
       MESHMIND_ERROR_DETECT msg w) /\
  (forall path p,
     generate_refinement (mesher d) None (python w)
       = Throws (error_already_set msg) p ->
     reports (meshmind_export_snappy_dict (Some l) (Some path)) l
       MESHMIND_ERROR_EXPORT msg w) /\
  (forall path p1 p2,
     generate_refinement (mesher d) None (python w) = Returns tt p1 ->
     export_snappy_dict (mesher d) path None p1
       = Throws (error_already_set msg) p2 ->
     reports (meshmind_export_snappy_dict (Some l) (Some path)) l
       MESHMIND_ERROR_EXPORT msg w) /\
  (forall dir f p,
     generate_refinement (mesher d) (Some (negb (f =? 0))) (python w)
       = Throws (error_already_set msg) p ->
     reports (meshmind_export_openfoam_case (Some l) (Some dir) f) l
       MESHMIND_ERROR_EXPORT msg w) /\
  (forall dir f p1 p2,
     generate_refinement (mesher d) (Some (negb (f =? 0))) (python w)
       = Returns tt p1 ->
     export_snappy_dict (mesher d) dir (Some f) p1
       = Throws (error_already_set msg) p2 ->
     reports (meshmind_export_openfoam_case (Some l) (Some dir) f) l
       MESHMIND_ERROR_EXPORT msg w) /\
  (forall path p,
     FTetWildGenerator (python w) = Throws (error_already_set msg) p ->
     reports (meshmind_export_ftetwild_sizing (Some l) (Some path)) l
       MESHMIND_ERROR_EXPORT msg w) /\
  (forall path gen p1 p2,
     FTetWildGenerator (python w) = Returns gen p1 ->
     detections (mesher d) p1 = Throws (error_already_set msg) p2 ->
     reports (meshmind_export_ftetwild_sizing (Some l) (Some path)) l
       MESHMIND_ERROR_EXPORT msg w) /\
  (forall path gen dets p1 p2 p3,
     FTetWildGenerator (python w) = Returns gen p1 ->
     detections (mesher d) p1 = Returns dets p2 ->
     generate_refinement_config gen dets base_size refinement_factor p2
       = Throws (error_already_set msg) p3 ->
     reports (meshmind_export_ftetwild_sizing (Some l) (Some path)) l
       MESHMIND_ERROR_EXPORT msg w) /\
  (forall path gen dets config p1 p2 p3 p4,
     FTetWildGenerator (python w) = Returns gen p1 ->
     detections (mesher d) p1 = Returns dets p2 ->
     generate_refinement_config gen dets base_size refinement_factor p2
       = Returns config p3 ->
     export_config gen config path p3
       = Throws (error_already_set msg) p4 ->
     reports (meshmind_export_ftetwild_sizing (Some l) (Some path)) l
       MESHMIND_ERROR_EXPORT msg w) /\
  (forall det e,
     py_region_metadata det = Raises e \/
     py_region_metadata det = Value (Some (Raises e)) ->
     marshal det tt = marshal (without_metadata det) tt).
Proof.
  intros Hd. unfold valid in Hd.
  split; [repeat split |].
  split; [apply error_string_nonempty |].
  split.
  { intros path Hmissing.
    destruct (load_target_missing (mesher d) path (python w) Hmissing)
      as (err & p & H).
    exists err. split; [| split; [reflexivity | apply error_string_nonempty]].
    apply (reports_python_error _ l _ w err (set_python p w) d);
      [unfold load_target_try; raise_in Hd | exact Hd]. }
  split; [| split; [| split; [| split; [| split; [| split; [| split;
    [| split; [| split; [| split; [| split]]]]]]]]]];
    [.. | intros det e [H | H];
          [apply (marshal_radius_caught det e H)
          | apply (marshal_radius_conversion_caught det e H)]].
  - intros path p H.
    apply (reports_python_error _ l _ w msg (set_python p w) d);
      [unfold load_target_try; raise_in Hd | exact Hd].
  - intros b n p Hn H. unfold meshmind_detect.
    destruct (n <=? 0) eqn:Hle; [lia |].
    apply (reports_python_error _ l _ w msg (set_python p w) d);
      [unfold detect_try; raise_in Hd | exact Hd].
  - intros b n p dets a rs det Hn Hdets Ha Hrs Hroom Hcount Hdet Hraise.
    unfold meshmind_detect. destruct (n <=? 0) eqn:Hle; [lia |].
    eapply reports_python_error.
    + rewrite (detect_try_unfold l b n w d dets p Hd Hdets). cbv zeta.
      replace (Z.to_nat (Z.min (to_int (Z.of_nat (length dets))) n))
        with (length rs + S (Z.to_nat
                (Z.min (to_int (Z.of_nat (length dets))) n)
                - S (length rs)))%nat by lia.
      unfold bind.
      rewrite (detect_loop_throws l b dets rs det (error_already_set msg) _
                 _ (set_cached_detections [] d) a);
        [reflexivity | unfold valid; simpl; apply lookup_insert_eq
         | exact Ha | exact Hrs | exact Hroom | exact Hdet | exact Hraise].
    + unfold valid, wrote. simpl. apply lookup_insert_eq.
  - intros path p H.
    apply (reports_python_error _ l _ w msg (set_python p w) d);
      [unfold export_snappy_dict_try; raise_in Hd | exact Hd].
  - intros path p1 p2 H1 H2.
    apply (reports_python_error _ l _ w msg (set_python p2 w) d);
      [unfold export_snappy_dict_try; raise_in Hd | exact Hd].
  - intros dir f p H.
    apply (reports_python_error _ l _ w msg (set_python p w) d);
      [unfold export_openfoam_case_try; raise_in Hd | exact Hd].
  - intros dir f p1 p2 H1 H2.
    apply (reports_python_error _ l _ w msg (set_python p2 w) d);
      [unfold export_openfoam_case_try; raise_in Hd | exact Hd].
  - intros path p H.
    apply (reports_python_error _ l _ w msg (set_python p w) d);
      [unfold export_ftetwild_sizing_try; raise_in Hd | exact Hd].
  - intros path gen p1 p2 H1 H2.
    apply (reports_python_error _ l _ w msg (set_python p2 w) d);
      [unfold export_ftetwild_sizing_try; raise_in Hd | exact Hd].
  - intros path gen dets p1 p2 p3 H1 H2 H3.
    apply (reports_python_error _ l _ w msg (set_python p3 w) d);
      [unfold export_ftetwild_sizing_try; raise_in Hd | exact Hd].
  - intros path gen dets config p1 p2 p3 p4 H1 H2 H3 H4.
    apply (reports_python_error _ l _ w msg (set_python p4 w) d);
      [unfold export_ftetwild_sizing_try; raise_in Hd | exact Hd].
Qed.

(** C6: the records [meshmind_detect] writes are well formed.  When the call
    returns a count [n >= 0], each of the first [n] entries of the array is
    the record marshalled from the engine's detection of the same index: the
    position is the translation column of the transform
    ([position[k] = transform[4k+3]]), the identifier fills its 256 bytes
    and ends in NUL, and the radius is 0 unless the engine provides one.
    However the call returns (also with [MESHMIND_ERROR_DETECT] after some
    records were stored), every entry of the array is either as it was before
    the call or such a record. *)
Theorem detect_records_well_formed (w w' : World) (l b : loc)
    (d : MeshMindDetector_t) (c n : Z) (dets : list PyDetection) (p : Py) :
  valid w l d ->
  detections (mesher d) (python w) = Returns dets p ->
  meshmind_detect (Some l) (Some b) c w = Returns n w' ->
  (forall j, (0 <= Z.of_nat j < n) ->
     exists r det,
       entry w' b j = Some r /\ dets !! j = Some det /\
       well_formed r /\ radius r = default 0%float (provided_radius det)) /\
  (forall j r, entry w' b j = Some r ->
     entry w b j = Some r \/
     exists det,
       dets !! j = Some det /\
       well_formed r /\ radius r = default 0%float (provided_radius det)).
Proof.
  intros Hd Hdets Hrun. split.
  - intros j Hj.
    destruct (detect_Returns _ _ _ _ _ _ _ Hd Hrun)
      as [(_ & -> & _) | [[Hc Htry] | (_ & -> & _)]];
      [unfold MESHMIND_ERROR_INVALID_PARAM in Hj; lia |
       | unfold MESHMIND_ERROR_DETECT in Hj; lia].
    rewrite (detect_try_unfold l b c w d dets p Hd Hdets) in Htry.
    cbv zeta in Htry.
    apply bind_Returns in Htry as ([] & w3 & Hloop & Hret).
    injection Hret as Hcount <-.
    pose proof Hloop as Hloop'.
    eapply detect_loop_Returns in Hloop as (rs & Hlen & Hrs & Hroom);
      [| unfold valid; simpl; apply lookup_insert_eq].
    destruct Hroom as [H0 | (a & Ha & Hroom)]; [lia |].
    rewrite <- Hlen in Hloop'.
    rewrite (detect_loop_runs l b dets rs 0 _ (set_cached_detections [] d) a)
      in Hloop';
      [| unfold valid; simpl; apply lookup_insert_eq | exact Ha
       | rewrite Hlen; exact Hrs | lia].
    injection Hloop' as <-.
    assert (Hjn : (j < length rs)%nat) by lia.
    destruct (lookup_lt_is_Some_2 rs j Hjn) as [r Hr].
    simpl in Hrs. rewrite drop_0 in Hrs.
    destruct (Forall2_lookup_r _ _ _ _ _ Hrs Hr) as (det & Hdet & Hm).
    apply lookup_take_Some in Hdet as [Hdet _].
    exists r, det. unfold entry, wrote. simpl. rewrite lookup_insert_eq. simpl.
    rewrite lookup_app_l by exact Hjn.
    destruct (marshal_Returns _ _ _ Hm) as [Hwf Hrad]. auto.
  - intros j r Hentry.
    assert (Hw : written dets b w w').
    { unfold meshmind_detect in Hrun.
      destruct (c <=? 0); [injection Hrun as _ <-; reflexivity |].
      pose proof (detect_try_written l b c w d dets p Hd Hdets) as Hbody.
      destruct (try_catch_Returns _ _ _ _ _ _ _
                  (detect_try_same_errors l b c) Hd Hrun)
        as [[Hb _] | (msg & w1 & d1 & Hb & _ & _ & _ & ->)];
        rewrite Hb in Hbody; [exact Hbody |].
      etransitivity; [exact Hbody | apply written_detectors]. }
    destruct (Hw j r Hentry) as [Hold | (det & Hdet & Hm)];
      [left; exact Hold | right].
    exists det. destruct (marshal_Returns _ _ _ Hm) as [Hwf Hrad]. auto.
Qed.

(** C7, amended: the error string is a field of the struct behind the handle.
    A successful [meshmind_create_detector] returns a handle to a new struct
    whose string is empty, so the accessor returns "" on it; the accessor
    reads that field and nothing else; a call on one handle leaves the
    strings of the others alone; a call whose [try] block ends in a Python
    exception returns the status of its [catch] clause and overwrites the
    string with the message of the exception; a call that returns without
    entering a [try] block (a rejected parameter: -5) changes nothing. *)
Theorem last_error_per_handle (w : World) :
  (forall l w',
     meshmind_create_detector w = Returns (Some l) w' ->
     detectors w !! l = None /\
     (exists d', valid w' l d' /\ last_error d' = "") /\
     meshmind_get_error (Some l) w' = Returns "" w' /\
     (forall l', l' <> l -> detectors w' !! l' = detectors w !! l')) /\
  (forall l d,
     valid w l d -> meshmind_get_error (Some l) w = Returns (last_error d) w) /\
  (forall l d c r w',
     valid w l d -> run_call (Some l) c w = Returns r w' ->
     forall l', l' <> l ->
       last_error <$> detectors w' !! l' = last_error <$> detectors w !! l') /\
  (forall l d c body code msg w1,
     valid w l d -> try_block l c = Some (body, code) ->
     body w = Throws (error_already_set msg) w1 ->
     reports (run_call (Some l) c) l code msg w) /\
  (forall l c r w',
     try_block l c = None -> run_call (Some l) c w = Returns r w' -> w' = w).
Proof.
  split; [| split; [| split; [| split]]].
  - intros l w'. unfold meshmind_create_detector, try_catch.
    destruct (bind _ _ w) as [h w1 | [msg | msg] w1 |] eqn:Hbody;
      simpl; try discriminate.
    intros [= -> ->].
    apply bind_Returns in Hbody as (g & w2 & Hg & Hbody).
    apply bind_Returns in Hbody as (m & w3 & Hm & Hbody).
    apply bind_Returns in Hbody as (l' & w4 & Hnew & Hret).
    injection Hret as -> ->.
    assert (H2 : detectors w2 = detectors w).
    { unfold py in Hg. destruct (new_scoped_interpreter _);
        [| discriminate ..]. injection Hg as _ <-. reflexivity. }
    assert (H3 : detectors w3 = detectors w2).
    { unfold py in Hm. destruct (AutoMesher _); [| discriminate ..].
      injection Hm as _ <-. reflexivity. }
    unfold new in Hnew. injection Hnew as <- <-. rewrite H3, H2.
    assert (Hfresh : detectors w !! fresh (dom (detectors w)) = None)
      by (apply not_elem_of_dom, is_fresh).
    split; [exact Hfresh |]. split; [| split].
    + eexists. split; [unfold valid; simpl; apply lookup_insert_eq |].
      reflexivity.
    + unfold meshmind_get_error, bind, deref. simpl.
      rewrite lookup_insert_eq. reflexivity.
    + intros l' Hne. simpl. rewrite lookup_insert_ne by congruence.
      reflexivity.
  - intros l d. apply get_error_valid.
  - intros l d c r w' Hd Hrun.
    apply (run_call_frame _ _ _ _ _ _ Hd Hrun).
  - intros l d c body code msg w1 Hd Hc Hbody.
    destruct (try_block_same_errors _ _ _ _ Hc) as [Hg _].
    pose proof (Hg w) as Hw. rewrite Hbody in Hw.
    destruct (same_errors_valid _ _ _ _ Hw Hd) as (d1 & Hd1 & _).
    eexists. split.
    + rewrite run_call_try_block, Hc.
      apply (catch_python_error _ _ _ _ _ _ _ Hbody Hd1).
    + unfold meshmind_get_error, bind, deref. simpl.
      rewrite lookup_insert_eq. reflexivity.
  - intros l c r w' Hc Hrun. rewrite run_call_try_block, Hc in Hrun.
    injection Hrun as _ <-. reflexivity.
Qed.

(** C8: [meshmind_version] takes no argument and, in every state of the
    process, returns the literal "1.0.0" and leaves the state as it was; it
    neither throws nor has undefined behaviour, so two calls in a row return
    the same string. *)
Theorem version_static (w : World) :
  meshmind_version w = Returns "1.0.0" w /\
  (v1 <- meshmind_version ;; v2 <- meshmind_version ;; ret (v1, v2)) w
    = Returns ("1.0.0", "1.0.0") w.
Proof. split; reflexivity. Qed.

(** C9: when [meshmind_detect] on a valid handle returns a count [n >= 0],
    the cache of the handle holds [n] records, and they are the first [n]
    entries of the caller's array in the same order; nothing of the
    previous cache is left. *)
Theorem detect_cache_mirrors_array (w w' : World) (l b : loc)
    (d : MeshMindDetector_t) (c n : Z) :
  valid w l d ->
  meshmind_detect (Some l) (Some b) c w = Returns n w' ->
  0 <= n ->
  exists d',
    valid w' l d' /\
    length (cached_detections d') = Z.to_nat n /\
    cached_detections d' = take (Z.to_nat n) (default [] (arrays w' !! b)).
Proof.
  intros Hd Hrun Hn.
  destruct (detect_Returns _ _ _ _ _ _ _ Hd Hrun)
    as [(_ & -> & _) | [[Hc Htry] | (_ & -> & _)]];
    [unfold MESHMIND_ERROR_INVALID_PARAM in Hn; lia |
     | unfold MESHMIND_ERROR_DETECT in Hn; lia].
  unfold detect_try in Htry.
  apply bind_Returns in Htry as (d0 & w0 & Hderef & Htry).
  unfold deref in Hderef. rewrite Hd in Hderef. injection Hderef as <- <-.
  apply bind_Returns in Htry as (dets & w1 & Hpy & Htry).
  unfold py in Hpy.
  destruct (detections (mesher d) (python w)) as [dets' p | |];
    [| discriminate ..].
  injection Hpy as -> <-.
  apply bind_Returns in Htry as ([] & w2 & Hupd & Htry).
  unfold update in Hupd. simpl in Hupd. rewrite Hd in Hupd.
  injection Hupd as <-.
  apply bind_Returns in Htry as ([] & w3 & Hloop & Hret).
  injection Hret as <- <-.
  eapply (detect_loop_cache l b dets _ 0%nat) in Hloop; [exact Hloop | | |].
  - unfold valid. simpl. apply lookup_insert_eq.
  - reflexivity.
  - reflexivity.
Qed.

(** C10: [meshmind_add_template] does not look at [feature_id].  The call
    behaves the same for any two identifiers, and with a null identifier on
    a non-null handle and path it returns [MESHMIND_SUCCESS] (0), not
    [MESHMIND_ERROR_INVALID_PARAM]. *)
Theorem add_template_ignores_feature_id (detector : MeshMindDetector)
    (template_path id id' : c_string) (l : loc) (path : string) (w : World) :
  meshmind_add_template detector template_path id
  = meshmind_add_template detector template_path id' /\
  meshmind_add_template (Some l) (Some path) None w
  = Returns MESHMIND_SUCCESS w /\
  MESHMIND_SUCCESS = 0 /\
  MESHMIND_SUCCESS <> MESHMIND_ERROR_INVALID_PARAM.
Proof. repeat split. discriminate. Qed.

(** ** Beyond the claims: what a record holds *)

(** A property of the loop variable indexed by the turn. *)
Lemma for_loop_Returns_ind {St A} (P : nat -> A -> Prop)
    (body : nat -> A -> comp St A) :
  forall n lo a s a' s',
    (forall i a s a' s',
       (lo <= i < lo + n)%nat -> P i a -> body i a s = Returns a' s' ->
       P (S i) a') ->
    P lo a -> for_loop lo n body a s = Returns a' s' -> P (lo + n)%nat a'.
Proof.
  induction n as [| n IH]; intros lo a s a' s' Hbody Ha; simpl.
  - intros [= <- _]. rewrite Nat.add_0_r. exact Ha.
  - intros H. apply bind_Returns in H as (a1 & s1 & H1 & H2).
    replace (lo + S n)%nat with (S lo + n)%nat by lia.
    eapply IH; [| | exact H2].
    + intros i b t b' t' Hi. apply Hbody. lia.
    + eapply Hbody; [| exact Ha | exact H1]. lia.
Qed.

Lemma copy_transform_row_major rows r0 r u u' :
  length (transform r0) = 16%nat ->
  for_loop 0 4 (fun r result =>
      for_loop 0 4 (fun c result =>
        v <- unchecked_at rows r c ;;
        ret (set_transform (<[(r * 4 + c)%nat := v]> (transform result)) result))
      result)
    r0 u = Returns r u' ->
  row_major_upto rows 16 (transform r).
Proof.
  intros Hlen H.
  apply (for_loop_Returns_ind
           (fun i res => row_major_upto rows (i * 4) (transform res)))
    in H; [exact H | | split; [exact Hlen | intros; lia]].
  intros i a s a' s' Hi Ha Hrow.
  apply (for_loop_Returns_ind
           (fun c res => row_major_upto rows (i * 4 + c) (transform res)))
    in Hrow.
  - replace (S i * 4)%nat with (i * 4 + (0 + 4))%nat by lia. exact Hrow.
  - clear Hrow Ha. intros c b t b' t' Hc [Hb Hupto] Hstep.
    apply bind_Returns in Hstep as (v & t1 & Hv & Hret).
    injection Hret as <- _. simpl.
    unfold unchecked_at in Hv. fold (at2 rows i c) in Hv.
    destruct (at2 rows i c) as [v' |] eqn:Hat; [| discriminate].
    injection Hv as -> _.
    split; [rewrite length_insert; exact Hb |].
    intros i' j' Hj' Hlt.
    destruct (decide (i' * 4 + j' = i * 4 + c)%nat) as [Heq | Hne].
    + assert (i' = i /\ j' = c) as [-> ->] by lia.
      rewrite list_lookup_insert_eq by lia. symmetry. exact Hat.
    + rewrite list_lookup_insert_ne by lia. apply Hupto; lia.
  - rewrite Nat.add_0_r. exact Ha.
Qed.

(** What [marshal] has read and stored when it returns. *)
Lemma marshal_inv det r u :
  marshal det tt = Returns r u ->
  exists id rows conf,
    py_feature_id det = Value id /\
    py_transform det = Value (Matrix rows) /\
    py_confidence det = Value conf /\
    feature_id r = strncpy (replicate 256 NUL) id 255 /\
    row_major_upto rows 16 (transform r) /\
    confidence r = conf.
Proof.
  unfold marshal. intros H.
  apply bind_Returns in H as (id & s1 & Hid & H).
  apply bind_Returns in H as (arr & s2 & Harr & H).
  apply bind_Returns in H as (rows & s3 & Hrows & H).
  apply bind_Returns in H as (r1 & s4 & Hcopy & H).
  apply bind_Returns in H as (conf & s5 & Hconf & H).
  apply bind_Returns in H as (r2 & s6 & Hrad & H).
  injection H as <- _.
  apply fetch_Returns in Hid as [Hid _].
  apply fetch_Returns in Harr as [Harr _].
  apply fetch_Returns in Hconf as [Hconf _].
  destruct arr as [rows' | k]; [| discriminate]. injection Hrows as -> _.
  pose proof (copy_transform_around _ _ _ _ _ Hcopy) as (Hfid & _).
  apply copy_transform_row_major in Hcopy; [| reflexivity].
  exists id, rows, conf.
  split; [exact Hid | split; [exact Harr | split; [exact Hconf |]]].
  unfold try_catch, catch_all in Hrad.
  destruct (py_region_metadata det) as [[[v | e] |] | e]; simpl in Hrad;
    injection Hrad as <- _; simpl; rewrite Hfid; auto.
Qed.

Lemma read_c_string_strncpy_chars id n rest :
  read_c_string (strncpy_chars id n ++ NUL :: rest)
  = Some (string_take n (c_str id)).
Proof.
  revert id. induction n as [| n IH]; intros id.
  - simpl. destruct (c_str id); reflexivity.
  - destruct id as [| c s]; [reflexivity |]. simpl.
    destruct (Ascii.eqb c NUL) eqn:Hc; [reflexivity |].
    simpl. rewrite Hc, IH. reflexivity.
Qed.

Lemma string_take_all s n :
  (String.length s <= n)%nat -> string_take n s = s.
Proof.
  revert n. induction s as [| c s IH]; intros n Hn.
  - destruct n; reflexivity.
  - destruct n as [| n]; [simpl in Hn; lia |].
    simpl. rewrite IH by (simpl in Hn; lia). reflexivity.
Qed.

Lemma c_str_without_nul id :
  ~ In NUL (list_ascii_of_string id) -> c_str id = id.
Proof.
  induction id as [| c s IH]; [reflexivity |]. simpl. intros Hnot.
  destruct (Ascii.eqb c NUL) eqn:Hc.
  - apply Ascii.eqb_eq in Hc. destruct Hnot. left. exact Hc.
  - rewrite IH; [reflexivity |]. intros Hin. apply Hnot. right. exact Hin.
Qed.


(** X2: reading the identifier of a returned record as a C string gives the
    engine's identifier up to its first NUL, cut to 255 characters; an
    identifier of at most 255 characters without NUL is read back whole. *)
Theorem marshal_feature_id_read_back (det : PyDetection)
    (r : MeshMindDetection) (u : unit) :
  marshal det tt = Returns r u ->
  exists id,
    py_feature_id det = Value id /\
    read_c_string (feature_id r) = Some (string_take 255 (c_str id)) /\
    ((String.length id <= 255)%nat -> ~ In NUL (list_ascii_of_string id) ->
     read_c_string (feature_id r) = Some id).
Proof.
  intros H.
  destruct (marshal_inv _ _ _ H) as (id & rows & conf & Hid & _ & _ & Hf & _).
  exists id. split; [exact Hid |].
  assert (Hread : read_c_string (feature_id r)
                  = Some (string_take 255 (c_str id))).
  { rewrite Hf. unfold strncpy.
    change (drop 255 (replicate 256 NUL)) with [NUL].
    apply read_c_string_strncpy_chars. }
  split; [exact Hread |].
  intros Hlen Hnul. rewrite Hread, (c_str_without_nul _ Hnul).
  rewrite string_take_all by exact Hlen. reflexivity.
Qed.

(** An array that is not two-dimensional makes [unchecked<2>()] throw. *)
Lemma marshal_wrong_rank det id k :
  py_feature_id det = Value id ->
  py_transform det = Value (OtherRank k) ->
  marshal det tt
  = Throws (std_exception
              ("array has incorrect number of dimensions: "
               ++ to_string k ++ "; expected 2")%string) tt.
Proof.
  intros Hid Harr. unfold marshal, bind.
  rewrite Hid. cbn [fetch ret]. rewrite Harr. reflexivity.
Qed.

(** ** Beyond the claims: how [meshmind_detect] fails *)

(** The [try] block of [meshmind_detect] when the marshalling of detection
    [length rs] throws: the records before it are stored and cached. *)
Lemma detect_try_throws l b n w d a dets p rs det e :
  valid w l d -> arrays w !! b = Some a ->
  detections (mesher d) (python w) = Returns dets p ->
  marshalled (take (length rs) dets) rs ->
  (length rs <= length a)%nat ->
  (length rs < Z.to_nat (Z.min (to_int (Z.of_nat (length dets))) n))%nat ->
  dets !! length rs = Some det ->
  marshal det tt = Throws e tt ->
  detect_try l b n w =
  Throws e
    {| detectors := <[l := set_cached_detections rs d]> (detectors w);
       arrays := <[b := rs ++ drop (length rs) a]> (arrays w);
       python := p |}.
Proof.
  intros Hd Ha Hdets Hrs Hroom Hcount Hdet He.
  rewrite (detect_try_unfold l b n w d dets p Hd Hdets). cbv zeta.
  replace (Z.to_nat (Z.min (to_int (Z.of_nat (length dets))) n))
    with (length rs + S (Z.to_nat
            (Z.min (to_int (Z.of_nat (length dets))) n)
            - S (length rs)))%nat by lia.
  unfold bind.
  rewrite (detect_loop_throws l b dets rs det e _ _
             (set_cached_detections [] d) a);
    [| unfold valid; simpl; apply lookup_insert_eq
     | exact Ha | exact Hrs | exact Hroom | exact Hdet | exact He].
  unfold wrote. simpl. rewrite insert_insert_eq. reflexivity.
Qed.

(** X4: a detection that fails in the middle is not undone.  When the
    marshalling of detection [i] raises a Python exception, the call returns
    -3 with the [i] records before it already in the caller's array and in
    the cache (the previous cache is gone), and the message as last error. *)
Theorem detect_failure_keeps_partial_results (w : World) (l b : loc)
    (d : MeshMindDetector_t) (a : list MeshMindDetection) (n : Z)
    (dets : list PyDetection) (p : Py) (rs : list MeshMindDetection)
    (det : PyDetection) (msg : python_error) :
  valid w l d -> arrays w !! b = Some a ->
  detections (mesher d) (python w) = Returns dets p ->
  marshalled (take (length rs) dets) rs ->
  (length rs <= length a)%nat ->
  (length rs < Z.to_nat (Z.min (to_int (Z.of_nat (length dets))) n))%nat ->
  dets !! length rs = Some det ->
  marshal det tt = Throws (error_already_set msg) tt ->
  meshmind_detect (Some l) (Some b) n w =
  Returns MESHMIND_ERROR_DETECT
    {| detectors :=
         <[l := set_last_error msg (set_cached_detections rs d)]> (detectors w);
       arrays := <[b := rs ++ drop (length rs) a]> (arrays w);
       python := p |}.
Proof.
  intros Hd Ha Hdets Hrs Hroom Hcount Hdet He.
  unfold meshmind_detect. destruct (n <=? 0) eqn:Hn; [lia |].
  erewrite catch_python_error;
    [| eapply detect_try_throws; eassumption
     | unfold valid; simpl; apply lookup_insert_eq].
  unfold set_detectors. simpl. rewrite insert_insert_eq. reflexivity.
Qed.

(** X5: when the read of the engine's [detections] raises a Python exception,
    the call returns -3 before anything is cleared: the cache and the
    caller's array are as they were, only the last error changes. *)
Theorem detect_read_failure_keeps_cache (w : World) (l b : loc)
    (d : MeshMindDetector_t) (n : Z) (p : Py) (msg : python_error) :
  valid w l d -> 0 < n ->
  detections (mesher d) (python w) = Throws (error_already_set msg) p ->
  meshmind_detect (Some l) (Some b) n w =
  Returns MESHMIND_ERROR_DETECT
    {| detectors := <[l := set_last_error msg d]> (detectors w);
       arrays := arrays w;
       python := p |}.
Proof.
  intros Hd Hn Hdets.
  unfold meshmind_detect. destruct (n <=? 0) eqn:Hle; [lia |].
  erewrite (catch_python_error _ l _ w msg (set_python p w) d);
    [reflexivity | | exact Hd].
  unfold detect_try, bind, deref, py. rewrite Hd, Hdets. reflexivity.
Qed.

(** X6: only Python exceptions are caught.  When a detection's transform is
    not a two-dimensional array, the [std::domain_error] of [unchecked<2>()]
    leaves [meshmind_detect]: the call does not return a status, the last
    error is not set, and the records before that detection are already
    stored and cached. *)
Theorem detect_wrong_rank_escapes (w : World) (l b : loc)
    (d : MeshMindDetector_t) (a : list MeshMindDetection) (n : Z)
    (dets : list PyDetection) (p : Py) (rs : list MeshMindDetection)
    (det : PyDetection) (id : string) (k : nat) :
  valid w l d -> arrays w !! b = Some a ->
  detections (mesher d) (python w) = Returns dets p ->
  marshalled (take (length rs) dets) rs ->
  (length rs <= length a)%nat ->
  (length rs < Z.to_nat (Z.min (to_int (Z.of_nat (length dets))) n))%nat ->
  dets !! length rs = Some det ->
  py_feature_id det = Value id ->
  py_transform det = Value (OtherRank k) ->
  meshmind_detect (Some l) (Some b) n w =
  Throws (std_exception
            ("array has incorrect number of dimensions: "
             ++ to_string k ++ "; expected 2")%string)
    {| detectors := <[l := set_cached_detections rs d]> (detectors w);
       arrays := <[b := rs ++ drop (length rs) a]> (arrays w);
       python := p |}.
Proof.
  intros Hd Ha Hdets Hrs Hroom Hcount Hdet Hid Hrank.
  unfold meshmind_detect. destruct (n <=? 0) eqn:Hn; [lia |].
  unfold try_catch.
  rewrite (detect_try_throws l b n w d a dets p rs det _ Hd Ha Hdets Hrs
             Hroom Hcount Hdet (marshal_wrong_rank det id k Hid Hrank)).
  reflexivity.
Qed.

(** X7: [meshmind_detect] trusts [max_results].  When the caller's array is
    shorter than the count, min(max_results, number of detections), the
    store that follows the last entry of the array is outside it: the call
    has undefined behaviour. *)
Theorem detect_short_array_undefined (w : World) (l b : loc)
    (d : MeshMindDetector_t) (a : list MeshMindDetection) (n : Z)
    (dets : list PyDetection) (p : Py) (rs : list MeshMindDetection)
    (det : PyDetection) (r : MeshMindDetection) :
  valid w l d -> arrays w !! b = Some a ->
  detections (mesher d) (python w) = Returns dets p ->
  Z.of_nat (length dets) <= INT_MAX ->
  Z.of_nat (length a) < Z.min n (Z.of_nat (length dets)) ->
  marshalled (take (length a) dets) rs ->
  dets !! length a = Some det ->
  marshal det tt = Returns r tt ->
  meshmind_detect (Some l) (Some b) n w = Undefined.
Proof.
  intros Hd Ha Hdets Hmax Hshort Hrs Hdet Hr.
  assert (Hlen : length rs = length a).
  { apply Forall2_length in Hrs. rewrite <- Hrs, length_take. lia. }
  unfold meshmind_detect. destruct (n <=? 0) eqn:Hn; [lia |].
  unfold try_catch.
  rewrite (detect_try_unfold l b n w d dets p Hd Hdets). cbv zeta.
  rewrite to_int_small by lia.
  replace (Z.to_nat (Z.min (Z.of_nat (length dets)) n))
    with (length rs + S (Z.to_nat (Z.min (Z.of_nat (length dets)) n)
                         - S (length rs)))%nat by lia.
  unfold bind at 1. rewrite for_loop_add. unfold bind at 1.
  rewrite (detect_loop_runs l b dets rs 0 _ (set_cached_detections [] d) a);
    [| unfold valid; simpl; apply lookup_insert_eq | exact Ha
     | rewrite Hlen; exact Hrs | lia].
  simpl. unfold bind at 1. unfold detect_step, bind, list_item, local, store.
  rewrite Hlen, Hdet. simpl. rewrite Hr. unfold wrote. simpl.
  rewrite lookup_insert_eq.
  destruct (decide _) as [Hlt | _]; [| reflexivity].
  rewrite length_app, length_drop in Hlt. lia.
Qed.

(** X8: with a list of detections within [int], a status of
    [meshmind_detect] on a valid handle is -5 (nothing done), -3 (a Python
    exception was caught) or the count min(max_results, number of
    detections), which is not negative: a negative status is a failure and
    a status that is not negative is a count. *)
Theorem detect_status_cases (w w' : World) (l b : loc)
    (d : MeshMindDetector_t) (c r : Z) :
  valid w l d ->
  (forall dets p, detections (mesher d) (python w) = Returns dets p ->
                  Z.of_nat (length dets) <= INT_MAX) ->
  meshmind_detect (Some l) (Some b) c w = Returns r w' ->
  (r = MESHMIND_ERROR_INVALID_PARAM /\ c <= 0 /\ w' = w) \/
  (r = MESHMIND_ERROR_DETECT /\ 0 < c /\
   exists msg w1, detect_try l b c w = Throws (error_already_set msg) w1) \/
  (0 <= r /\ 0 < c /\
   exists dets p, detections (mesher d) (python w) = Returns dets p /\
                  r = Z.min c (Z.of_nat (length dets))).
Proof.
  intros Hd Hsmall Hrun.
  destruct (detect_Returns _ _ _ _ _ _ _ Hd Hrun)
    as [(Hc & -> & ->) | [[Hc Htry] | (Hc & -> & Hthrow)]].
  - left. auto.
  - right. right. unfold detect_try in Htry.
    apply bind_Returns in Htry as (d0 & w0 & Hderef & Htry).
    unfold deref in Hderef. rewrite Hd in Hderef. injection Hderef as <- <-.
    apply bind_Returns in Htry as (dets & w1 & Hpy & Htry).
    unfold py in Hpy.
    destruct (detections (mesher d) (python w)) as [dets' p | |] eqn:Hdets;
      [| discriminate ..].
    injection Hpy as -> <-.
    apply bind_Returns in Htry as ([] & w2 & _ & Htry).
    apply bind_Returns in Htry as ([] & w3 & _ & Hret).
    injection Hret as <- _.
    pose proof (Hsmall dets p eq_refl) as Hle.
    rewrite to_int_small by lia.
    split; [lia | split; [exact Hc |]].
    exists dets, p. split; [reflexivity | apply Z.min_comm].
  - right. left. auto.
Qed.

(** ** Beyond the claims: creation and frames *)

(** X9: [meshmind_create_detector] lets no exception out: both of its
    [catch] clauses return null.  It returns null when the start of the
    interpreter throws, and when the construction of the [AutoMesher] throws
    after the interpreter has started; in the latter case the interpreter is
    left as the failed construction left it, it is not deleted. *)
Theorem create_failure_returns_null (w : World) :
  (forall e w', meshmind_create_detector w <> Throws e w') /\
  (forall e p,
     new_scoped_interpreter (python w) = Throws e p ->
     exists w', meshmind_create_detector w = Returns nullptr w' /\
                python w' = p) /\
  (forall g p e p',
     new_scoped_interpreter (python w) = Returns g p ->
     AutoMesher p = Throws e p' ->
     exists w', meshmind_create_detector w = Returns nullptr w' /\
                python w' = p').
Proof.
  split; [| split].
  - intros e w'. unfold meshmind_create_detector, try_catch.
    destruct (bind _ _ w) as [h w1 | [msg | msg] w1 |]; discriminate.
  - intros e p H. unfold meshmind_create_detector, try_catch, bind, py.
    rewrite H. destruct e; eexists; split; reflexivity.
  - intros g p e p' Hg Hm.
    unfold meshmind_create_detector, try_catch, bind, py.
    rewrite Hg. simpl. rewrite Hm. destruct e; eexists; split; reflexivity.
Qed.

#[local] Instance untouched_preorder : PreOrder untouched.
Proof.
  split.
  - intros w. split; reflexivity.
  - intros w1 w2 w3 [H1 H2] [H3 H4]. split; congruence.
Qed.

Lemma untouched_python w p : untouched w (set_python p w).
Proof. split; reflexivity. Qed.

#[local] Instance others_kept_preorder l b : PreOrder (others_kept l b).
Proof.
  split.
  - intros w. repeat split.
  - intros w1 w2 w3 (H1 & H2 & H3) (H4 & H5 & H6). split; [| split].
    + intros l' Hne. rewrite H4, H1 by exact Hne. reflexivity.
    + intros b' Hne. rewrite H5, H2 by exact Hne. reflexivity.
    + intros b'. rewrite H6, H3. reflexivity.
Qed.

Lemma others_kept_python l b w p : others_kept l b w (set_python p w).
Proof. repeat split. Qed.

Lemma others_kept_update l b w d' :
  others_kept l b w (set_detectors (<[l := d']> (detectors w)) w).
Proof.
  split; [| split]; [| reflexivity ..].
  intros l' Hne. simpl. apply lookup_insert_ne. congruence.
Qed.

Lemma others_kept_store l b w a i r :
  arrays w !! b = Some a ->
  others_kept l (Some b) w (set_arrays (<[b := <[i := r]> a]> (arrays w)) w).
Proof.
  intros Ha. split; [reflexivity | split].
  - intros b' Hne. simpl. apply lookup_insert_ne. congruence.
  - intros b'. simpl. destruct (decide (b = b')) as [<- | Hne].
    + rewrite lookup_insert_eq, Ha. simpl. rewrite length_insert. reflexivity.
    + rewrite lookup_insert_ne by exact Hne. reflexivity.
Qed.

#[local] Hint Resolve untouched_python others_kept_python : errors.

Lemma detect_try_others_kept l b n :
  guarantees (others_kept l (Some b)) any (detect_try l b n).
Proof.
  unfold detect_try. sequence (others_kept l (Some b)).
  - apply guarantees_update. intros w d _. apply others_kept_update.
  - unfold detect_step.
    eapply guarantees_bind; [apply _ | apply guarantees_list_item; apply _ |].
    intros det _.
    eapply guarantees_bind; [apply _ | apply guarantees_local; apply _ |].
    intros r _.
    eapply guarantees_bind; [apply _ | apply guarantees_store |].
    + intros w a' Ha _. apply others_kept_store. exact Ha.
    + intros _ _. apply guarantees_update. intros w d _.
      apply others_kept_update.
Qed.

Lemma try_block_untouched l c body code :
  try_block l c = Some (body, code) -> target c = None ->
  guarantees untouched any body.
Proof.
  destruct c as [[p |] | [p |] f | [b |] n | [p |] | [p |] f | [p |]];
    simpl; try discriminate; intros [= <- <-] _.
  - unfold load_target_try. sequence untouched.
  - unfold export_snappy_dict_try. sequence untouched.
  - unfold export_openfoam_case_try. sequence untouched.
  - unfold export_ftetwild_sizing_try. sequence untouched.
Qed.

Lemma try_block_others_kept l c body code :
  try_block l c = Some (body, code) ->
  guarantees (others_kept l (target c)) any body.
Proof.
  destruct c as [[p |] | [p |] f | [b |] n | [p |] | [p |] f | [p |]];
    simpl; try discriminate.
  - intros [= <- <-]. unfold load_target_try. sequence (others_kept l None).
  - destruct (n <=? 0); [discriminate |]. intros [= <- <-].
    apply detect_try_others_kept.
  - intros [= <- <-]. unfold export_snappy_dict_try.
    sequence (others_kept l None).
  - intros [= <- <-]. unfold export_openfoam_case_try.
    sequence (others_kept l None).
  - intros [= <- <-]. unfold export_ftetwild_sizing_try.
    sequence (others_kept l None).
Qed.

(** X10: a call on a handle stays within its own struct and the array it was
    given.  However the call ends, by a return or by an exception that leaves
    it, the structs of the other handles are as they were, so are all the
    caller's arrays other than the [results] of a [meshmind_detect], and no
    array has changed its size. *)
Theorem call_keeps_the_rest (l : loc) (c : call) (w : World) :
  match run_call (Some l) c w with
  | Returns _ w' | Throws _ w' =>
      (forall l', l' <> l -> detectors w' !! l' = detectors w !! l') /\
      (forall b', Some b' <> target c -> arrays w' !! b' = arrays w !! b') /\
      (forall b', length <$> arrays w' !! b' = length <$> arrays w !! b')
  | Undefined => True
  end.
Proof.
  assert (Hg : guarantees (others_kept l (target c)) any (run_call (Some l) c)).
  { rewrite run_call_try_block.
    destruct (try_block l c) as [[body code] |] eqn:Hc.
    - apply guarantees_try_catch; [apply _ | |].
      + apply (try_block_others_kept _ _ _ _ Hc).
      + intros e k Hk. destruct e as [msg | msg]; [| discriminate].
        injection Hk as <-.
        eapply guarantees_bind; [apply _ | apply guarantees_update |].
        * intros w0 d _. apply others_kept_update.
        * intros _ _. apply guarantees_ret; [apply _ | exact I].
    - apply guarantees_ret; [apply _ | exact I]. }
  specialize (Hg w). unfold others_kept in Hg.
  destruct (run_call (Some l) c w); [apply Hg | exact Hg | exact I].
Qed.

(** X11: only [meshmind_detect] touches the cache and the arrays.  A call of
    another entry point on a valid handle that returns has left every
    array as it was, and the structs too, except that a call that failed in
    its [try] block has replaced the last error of its handle. *)
Theorem other_calls_keep_results (w w' : World) (l : loc)
    (d : MeshMindDetector_t) (c : call) (r : Z) :
  valid w l d -> target c = None ->
  run_call (Some l) c w = Returns r w' ->
  arrays w' = arrays w /\
  (detectors w' = detectors w \/
   exists msg,
     r < 0 /\ detectors w' = <[l := set_last_error msg d]> (detectors w)).
Proof.
  intros Hd Htarget Hrun. rewrite run_call_try_block in Hrun.
  destruct (try_block l c) as [[body code] |] eqn:Hc.
  - destruct (try_block_same_errors _ _ _ _ Hc) as [Hg Hcode].
    pose proof (try_block_untouched _ _ _ _ Hc Htarget w) as Hu.
    destruct (try_catch_Returns _ _ _ _ _ _ _ Hg Hd Hrun)
      as [[Hb _] | (msg & w1 & d1 & Hb & _ & Hd1 & -> & ->)];
      rewrite Hb in Hu.
    + destruct Hu as [[Hu1 Hu2] _]. auto.
    + destruct Hu as [Hu1 Hu2]. simpl. split; [exact Hu2 |].
      right. exists msg. split; [exact Hcode |].
      unfold valid in Hd1, Hd. rewrite Hu1 in Hd1 |- *.
      rewrite Hd in Hd1. injection Hd1 as <-. reflexivity.
  - injection Hrun as _ <-. auto.
Qed.

(** ** Beyond the claims: the example programs *)




#[local] Instance same_memory_preorder : PreOrder same_memory.
Proof.
  split; [intros s; reflexivity |].
  intros s1 s2 s3 H1 H2. unfold same_memory in *. congruence.
Qed.














(** The entries of the array that a returned count covers are the records
    marshalled from the engine's list. *)
Lemma detect_Returns_entries w w' l b d c n dets p :
  valid w l d ->
  detections (mesher d) (python w) = Returns dets p ->
  meshmind_detect (Some l) (Some b) c w = Returns n w' ->
  forall j, 0 <= Z.of_nat j < n ->
    exists r det,
      entry w' b j = Some r /\ dets !! j = Some det /\
      marshal det tt = Returns r tt.
Proof.
  intros Hd Hdets Hrun j Hj.
  destruct (detect_Returns _ _ _ _ _ _ _ Hd Hrun)
    as [(_ & -> & _) | [[Hc Htry] | (_ & -> & _)]];
    [unfold MESHMIND_ERROR_INVALID_PARAM in Hj; lia |
     | unfold MESHMIND_ERROR_DETECT in Hj; lia].
  rewrite (detect_try_unfold l b c w d dets p Hd Hdets) in Htry.
  cbv zeta in Htry.
  apply bind_Returns in Htry as ([] & w3 & Hloop & Hret).
  injection Hret as Hcount <-.
  pose proof Hloop as Hloop'.
  eapply detect_loop_Returns in Hloop as (rs & Hlen & Hrs & Hroom);
    [| unfold valid; simpl; apply lookup_insert_eq].
  destruct Hroom as [H0 | (a & Ha & Hroom)]; [lia |].
  rewrite <- Hlen in Hloop'.
  rewrite (detect_loop_runs l b dets rs 0 _ (set_cached_detections [] d) a)
    in Hloop';
    [| unfold valid; simpl; apply lookup_insert_eq | exact Ha
     | rewrite Hlen; exact Hrs | lia].
  injection Hloop' as <-.
  assert (Hjn : (j < length rs)%nat) by lia.
  destruct (lookup_lt_is_Some_2 rs j Hjn) as [r Hr].
  simpl in Hrs. rewrite drop_0 in Hrs.
  destruct (Forall2_lookup_r _ _ _ _ _ Hrs Hr) as (det & Hdet & Hm).
  apply lookup_take_Some in Hdet as [Hdet _].
  exists r, det. unfold entry, wrote. simpl. rewrite lookup_insert_eq. simpl.
  rewrite lookup_app_l by exact Hjn. auto.
Qed.

Lemma marshal_read_c_string det r u id :
  marshal det tt = Returns r u -> py_feature_id det = Value id ->
  read_c_string (feature_id r) = Some (string_take 255 (c_str id)).
Proof.
  intros H Hid.
  destruct (marshal_inv _ _ _ H) as (id' & rows & conf & Hid' & _ & _ & Hf & _).
  rewrite Hid in Hid'. injection Hid' as <-.
  rewrite Hf. unfold strncpy.
  change (drop 255 (replicate 256 NUL)) with [NUL].
  apply read_c_string_strncpy_chars.
Qed.

(** A loop that writes [line] for each entry it reads. *)
Lemma report_loop_runs (body : nat -> unit -> comp Process unit)
    (line : nat -> MeshMindDetection -> string -> list output) w b :
  (forall i r id outs,
     entry w b i = Some r -> read_c_string (feature_id r) = Some id ->
     body i tt {| memory := w; outputs := outs |}
     = Returns tt {| memory := w; outputs := outs ++ line i r id |}) ->
  forall k lo outs,
    (forall j, (lo <= j < lo + k)%nat ->
       exists r id,
         entry w b j = Some r /\ read_c_string (feature_id r) = Some id) ->
    for_loop lo k body tt {| memory := w; outputs := outs |}
    = Returns tt
        {| memory := w;
           outputs := outs ++ concat (report line w b <$> seq lo k) |}.
Proof.
  intros Hbody. induction k as [| k IH]; intros lo outs Hall; simpl.
  - unfold ret. rewrite app_nil_r. reflexivity.
  - destruct (Hall lo) as (r & id & Hr & Hid); [lia |].
    unfold bind. rewrite (Hbody lo r id outs Hr Hid).
    rewrite IH by (intros j Hj; apply Hall; lia).
    unfold report at 2. rewrite Hr, Hid. rewrite <- app_assoc. reflexivity.
Qed.

Lemma print_feature_runs w b i r id outs :
  entry w b i = Some r -> read_c_string (feature_id r) = Some id ->
  print_feature b i {| memory := w; outputs := outs |}
  = Returns tt {| memory := w; outputs := outs ++ [feature_line r id] |}.
Proof.
  intros Hr Hid. unfold print_feature, bind, api, load, c_string_in. simpl.
  rewrite Hr. simpl. rewrite Hid. reflexivity.
Qed.

Lemma show_result_runs w b i r id outs :
  entry w b i = Some r -> read_c_string (feature_id r) = Some id ->
  show_result b i {| memory := w; outputs := outs |}
  = Returns tt {| memory := w; outputs := outs ++ result_items i r id |}.
Proof.
  intros Hr Hid. unfold show_result, bind at 1, api, load. simpl.
  rewrite Hr. unfold bind at 1, c_string_in. rewrite Hid. simpl.
  unfold result_items.
  destruct (0 <? radius r)%float; unfold bind, ret, emit; simpl;
    rewrite <- ?app_assoc; reflexivity.
Qed.

(** X13: the print loop of basic_usage stays within what the detection
    wrote.  After a [meshmind_detect] that returned a count [n >= 0], the
    loop reads [n] entries, all inside the array and each with a
    NUL-terminated identifier, and prints one line per detection, in order,
    with the engine's identifier up to its first NUL and cut to 255
    characters. *)
Theorem print_features_after_detect (w w' : World) (l b : loc)
    (d : MeshMindDetector_t) (c n : Z) (dets : list PyDetection) (p : Py)
    (outs : list output) :
  valid w l d ->
  detections (mesher d) (python w) = Returns dets p ->
  meshmind_detect (Some l) (Some b) c w = Returns n w' ->
  0 <= n ->
  print_features b n {| memory := w'; outputs := outs |}
  = Returns tt
      {| memory := w';
         outputs :=
           outs ++
           concat (report (fun _ r id => [feature_line r id]) w' b
                     <$> seq 0 (Z.to_nat n)) |} /\
  forall j, (j < Z.to_nat n)%nat ->
    exists r det id,
      entry w' b j = Some r /\ dets !! j = Some det /\
      py_feature_id det = Value id /\
      report (fun _ r id => [feature_line r id]) w' b j
      = [feature_line r (string_take 255 (c_str id))].
Proof.
  intros Hd Hdets Hrun Hn.
  assert (Hall : forall j, (j < Z.to_nat n)%nat ->
            exists r det id,
              entry w' b j = Some r /\ dets !! j = Some det /\
              py_feature_id det = Value id /\
              read_c_string (feature_id r)
              = Some (string_take 255 (c_str id))).
  { intros j Hj.
    destruct (detect_Returns_entries _ _ _ _ _ _ _ _ _ Hd Hdets Hrun j)
      as (r & det & Hr & Hdet & Hm); [lia |].
    destruct (marshal_inv _ _ _ Hm) as (id & _ & _ & Hid & _).
    exists r, det, id. repeat (split; [assumption |]).
    apply (marshal_read_c_string _ _ _ _ Hm Hid). }
  split.
  - unfold print_features.
    apply (report_loop_runs _ (fun _ r id => [feature_line r id])).
    + intros i r id outs'. apply print_feature_runs.
    + intros j Hj. destruct (Hall j) as (r & det & id & Hr & _ & _ & Hid);
        [lia |]. eauto.
  - intros j Hj. destruct (Hall j Hj) as (r & det & id & Hr & Hdet & Hid & Hs).
    exists r, det, id. repeat (split; [assumption |]).
    unfold report. rewrite Hr, Hs. reflexivity.
Qed.

(** X14: drivaer_mrf shows at most ten detections.  After a
    [meshmind_detect] that returned a count [n >= 0], its loop shows the
    first min(n, 10) records of the array, in order, each with its number,
    its identifier as the engine gave it (up to the first NUL, cut to 255
    characters), its confidence and position, and its radius only when that
    is positive. *)
Theorem show_results_after_detect (w w' : World) (l b : loc)
    (d : MeshMindDetector_t) (c n : Z) (dets : list PyDetection) (p : Py)
    (outs : list output) :
  valid w l d ->
  detections (mesher d) (python w) = Returns dets p ->
  meshmind_detect (Some l) (Some b) c w = Returns n w' ->
  0 <= n ->
  show_results b n {| memory := w'; outputs := outs |}
  = Returns tt
      {| memory := w';
         outputs :=
           outs ++
           concat (report result_items w' b
                     <$> seq 0 (Z.to_nat (Z.min n 10))) |} /\
  (Z.to_nat (Z.min n 10) <= 10)%nat /\
  forall j, (j < Z.to_nat (Z.min n 10))%nat ->
    exists r det id,
      entry w' b j = Some r /\ dets !! j = Some det /\
      py_feature_id det = Value id /\
      report result_items w' b j
      = result_items j r (string_take 255 (c_str id)).
Proof.
  intros Hd Hdets Hrun Hn.
  assert (Hall : forall j, (j < Z.to_nat (Z.min n 10))%nat ->
            exists r det id,
              entry w' b j = Some r /\ dets !! j = Some det /\
              py_feature_id det = Value id /\
              read_c_string (feature_id r)
              = Some (string_take 255 (c_str id))).
  { intros j Hj.
    destruct (detect_Returns_entries _ _ _ _ _ _ _ _ _ Hd Hdets Hrun j)
      as (r & det & Hr & Hdet & Hm); [lia |].
    destruct (marshal_inv _ _ _ Hm) as (id & _ & _ & Hid & _).
    exists r, det, id. repeat (split; [assumption |]).
    apply (marshal_read_c_string _ _ _ _ Hm Hid). }
  split; [| split; [lia |]].
  - unfold show_results. apply (report_loop_runs _ result_items).
    + intros i r id outs'. apply show_result_runs.
    + intros j Hj. destruct (Hall j) as (r & det & id & Hr & _ & _ & Hid);
        [lia |]. eauto.
  - intros j Hj. destruct (Hall j Hj) as (r & det & id & Hr & Hdet & Hid & Hs).
    exists r, det, id. repeat (split; [assumption |]).
    unfold report. rewrite Hr, Hs. reflexivity.
Qed.




(** The engine computation a [try] block other than that of
    [meshmind_detect] amounts to, as a function of the handle's mesher. *)
Lemma try_block_engine_only l c body code :
  try_block l c = Some (body, code) -> target c = None ->
  exists m : PyObject -> comp Py Z,
    forall w d, valid w l d -> body w = py (m (mesher d)) w.
Proof.
  destruct c as [[p |] | [p |] f | [b |] n | [p |] | [p |] f | [p |]];
    simpl; try discriminate; intros [= <- <-] _.
  - exists (fun o => load_target o p ;; ret MESHMIND_SUCCESS).
    intros w d Hd. unfold load_target_try, bind, deref, py, ret.
    rewrite Hd.
    destruct (load_target (mesher d) p (python w)); reflexivity.
  - exists (fun o => generate_refinement o None ;;
                     export_snappy_dict o p None ;; ret MESHMIND_SUCCESS).
    intros w d Hd. unfold export_snappy_dict_try, bind, deref, py, ret.
    rewrite Hd.
    destruct (generate_refinement (mesher d) None (python w)) as [[] p1 | |];
      [| reflexivity ..].
    simpl. rewrite Hd. simpl.
    destruct (export_snappy_dict (mesher d) p None p1); reflexivity.
  - exists (fun o => generate_refinement o (Some (negb (f =? 0))) ;;
                     export_snappy_dict o p (Some f) ;; ret MESHMIND_SUCCESS).
    intros w d Hd. unfold export_openfoam_case_try, bind, deref, py, ret.
    rewrite Hd.
    destruct (generate_refinement (mesher d) (Some (negb (f =? 0))) (python w))
      as [[] p1 | |]; [| reflexivity ..].
    simpl. rewrite Hd. simpl.
    destruct (export_snappy_dict (mesher d) p (Some f) p1); reflexivity.
  - exists (fun o =>
              g <- FTetWildGenerator ;;
              dets <- detections o ;;
              config <- generate_refinement_config g dets base_size
                          refinement_factor ;;
              export_config g config p ;; ret MESHMIND_SUCCESS).
    intros w d Hd. unfold export_ftetwild_sizing_try, bind, deref, py, ret.
    destruct (FTetWildGenerator (python w)) as [g p1 | |]; [| reflexivity ..].
    simpl. rewrite Hd. simpl.
    destruct (detections (mesher d) p1) as [dets p2 | |]; [| reflexivity ..].
    simpl.
    destruct (generate_refinement_config g dets base_size refinement_factor p2)
      as [config p3 | |]; [| reflexivity ..].
    simpl.
    destruct (export_config g config p p3); reflexivity.
Qed.

(** X16: the entry points other than [meshmind_detect] see the engine only.
    On two memories with the same mesher behind the handle and the same
    interpreter state, a call that returns on one returns the same status on
    the other and leaves the interpreter in the same state: the cache of
    detections, the caller's arrays and the last error have no part in a load
    or an export, which work on what the engine holds. *)
Theorem engine_calls_see_only_the_engine (w1 w2 w1' : World) (l : loc)
    (d1 d2 : MeshMindDetector_t) (c : call) (r : Z) :
  valid w1 l d1 -> valid w2 l d2 -> mesher d1 = mesher d2 ->
  python w1 = python w2 -> target c = None ->
  run_call (Some l) c w1 = Returns r w1' ->
  exists w2',
    run_call (Some l) c w2 = Returns r w2' /\ python w2' = python w1'.
Proof.
  intros Hd1 Hd2 Hm Hp Hc. rewrite !run_call_try_block.
  destruct (try_block l c) as [[body code] |] eqn:Hb.
  - destruct (try_block_engine_only _ _ _ _ Hb Hc) as (m & Hbody).
    unfold try_catch.
    rewrite (Hbody _ _ Hd1), (Hbody _ _ Hd2). unfold py.
    rewrite <- Hm, <- Hp.
    destruct (m (mesher d1) (python w1)) as [r1 p1 | [msg | msg] p1 |];
      simpl; try discriminate.
    + intros [= <- <-]. eexists. split; reflexivity.
    + unfold bind, update. simpl. rewrite Hd1, Hd2. simpl.
      intros [= <- <-]. eexists. split; reflexivity.
  - intros [= <- <-]. eexists. split; [reflexivity | symmetry; exact Hp].
Qed.

End Properties.

(** * The claims on the scripted engine *)

Section Examples.
Import Scripted.

(** C1 as stated fails at capacity 0: with two detections at hand the call
    returns -5, not min(0, 2) = 0. *)
Lemma detect_capacity_zero_rejected :
  valid car_session 1%positive new_detector /\
  detections (mesher new_detector) (python car_session)
    = Returns [wheel; bolt] (python car_session) /\
  meshmind_detect handle buffer 0 car_session = Returns (-5) car_session /\
  -5 <> Z.min 0 (Z.of_nat (length [wheel; bolt])).
Proof. repeat split. discriminate. Qed.

Lemma detect_writes_min_witness :
  (valid car_session 1%positive new_detector /\
   arrays car_session !! 1%positive = Some (replicate 3 zeroed_detection) /\
   detections (mesher new_detector) (python car_session)
     = Returns [wheel; bolt] (python car_session) /\
   marshalled [wheel; bolt] [wheel_record; bolt_record]) /\
  meshmind_detect handle buffer 5 car_session =
    Returns 2
      {| detectors :=
           <[1%positive :=
               set_cached_detections [wheel_record; bolt_record] new_detector]>
             (detectors car_session);
         arrays :=
           <[1%positive := [wheel_record; bolt_record; zeroed_detection]]>
             (arrays car_session);
         python := python car_session |}.
Proof.
  assert (h1 : valid car_session 1%positive new_detector) by reflexivity.
  assert (h2 : arrays car_session !! 1%positive
               = Some (replicate 3 zeroed_detection)) by reflexivity.
  assert (h3 : detections (mesher new_detector) (python car_session)
               = Returns [wheel; bolt] (python car_session)) by reflexivity.
  assert (h4 : marshalled [wheel; bolt] [wheel_record; bolt_record])
    by (repeat constructor).
  split; [auto |].
  destruct (detect_writes_min car_session 1%positive 1%positive new_detector
              (replicate 3 zeroed_detection) 5 [wheel; bolt]
              (python car_session) [wheel_record; bolt_record] h1 h2 h3)
    as [H _];
    [lia | vm_compute; discriminate | exact h4 | simpl; lia | exact H].
Defined.

(** C3 as stated fails: after a failed load and then a successful one, the
    most recent operation has succeeded (status 0) and the accessor returns
    the message of the earlier failure, not the empty string. *)
Lemma success_keeps_earlier_error :
  returned
    (run_session handle
       [LoadTarget (Some "missing.stl"); LoadTarget (Some "car.stl")]
       empty_session)
  = Some [(-2, "FileNotFoundError: missing.stl");
          (0, "FileNotFoundError: missing.stl")] /\
  "FileNotFoundError: missing.stl" <> "".
Proof. split; [vm_compute; reflexivity | discriminate]. Qed.

Lemma get_error_after_session_witness :
  (valid empty_session 1%positive new_detector /\
   run_session handle
     [LoadTarget (Some "missing.stl"); LoadTarget (Some "car.stl")]
     empty_session
   = Returns [(-2, "FileNotFoundError: missing.stl");
              (0, "FileNotFoundError: missing.stl")]
       (after [LoadTarget (Some "missing.stl"); LoadTarget (Some "car.stl")]
          empty_session)) /\
  meshmind_get_error handle
    (after [LoadTarget (Some "missing.stl"); LoadTarget (Some "car.stl")]
       empty_session)
  = Returns "FileNotFoundError: missing.stl"
      (after [LoadTarget (Some "missing.stl"); LoadTarget (Some "car.stl")]
         empty_session).
Proof.
  assert (h1 : valid empty_session 1%positive new_detector) by reflexivity.
  assert (h2 : run_session handle
     [LoadTarget (Some "missing.stl"); LoadTarget (Some "car.stl")]
     empty_session
   = Returns [(-2, "FileNotFoundError: missing.stl");
              (0, "FileNotFoundError: missing.stl")]
       (after [LoadTarget (Some "missing.stl"); LoadTarget (Some "car.stl")]
          empty_session)) by (vm_compute; reflexivity).
  split; [auto |].
  apply (get_error_after_session _ _ _ _ _ _ h1 h2).
Defined.

(** C5 as stated fails: the [region_metadata] attribute of the bolt raises
    while [meshmind_detect] runs, and the call returns the count 1, not -3,
    and leaves the error string empty. *)
Lemma radius_error_not_reported :
  py_region_metadata bolt
  = Raises (error_already_set
      {| exc_type := "AttributeError";
         exc_value := "'Detection' object has no attribute 'region_metadata'" |}) /\
  returned
    ((r <- meshmind_detect handle buffer 1 ;;
      e <- meshmind_get_error handle ;;
      ret (r, e)) bolt_session)
  = Some (1, "") /\
  1 <> MESHMIND_ERROR_DETECT.
Proof. split; [reflexivity | split; [vm_compute; reflexivity | discriminate]]. Qed.

Lemma engine_error_reported_witness :
  file_exists (python empty_session) "missing.stl" = false /\
  reports (meshmind_load_target handle (Some "missing.stl")) 1%positive (-2)
    "FileNotFoundError: missing.stl" empty_session /\
  reports (meshmind_detect handle buffer 5) 1%positive (-3)
    "AttributeError: 'Detection' object has no attribute 'feature_id'"
    broken_session.
Proof.
  assert (h : file_exists (python empty_session) "missing.stl" = false)
    by reflexivity.
  split; [exact h | split].
  - destruct (engine_error_reported empty_session 1%positive new_detector
                {| exc_type := "FileNotFoundError";
                   exc_value := "missing.stl" |} eq_refl)
      as (_ & _ & Hmissing & _).
    destruct (Hmissing "missing.stl" h) as (err & (w' & Hrun & Hget) & _).
    exists w'. split; [exact Hrun |].
    vm_compute in Hrun. injection Hrun as <-. vm_compute. reflexivity.
  - destruct (engine_error_reported broken_session 1%positive new_detector
                {| exc_type := "AttributeError";
                   exc_value :=
                     "'Detection' object has no attribute 'feature_id'" |}
                eq_refl)
      as (_ & _ & _ & _ & _ & Hdetect & _).
    apply (Hdetect 1%positive 5 (python broken_session) [wheel; broken]
             (replicate 3 zeroed_detection) [wheel_record] broken);
      [lia | reflexivity | reflexivity | repeat constructor | simpl; lia
       | vm_compute; lia | reflexivity | reflexivity].
Defined.

Lemma detect_records_well_formed_witness :
  well_formed bolt_record /\ radius bolt_record = 0%float.
Proof.
  destruct (detect_records_well_formed car_session
              (after [Detect buffer 5] car_session) 1%positive 1%positive
              new_detector 5 2 [wheel; bolt] (python car_session))
    as [Hfirst _]; [reflexivity | reflexivity | vm_compute; reflexivity |].
  destruct (Hfirst 1%nat) as (r & det & Hr & Hdet & Hwf & Hrad); [lia |].
  vm_compute in Hr. injection Hr as <-. injection Hdet as <-.
  split; [exact Hwf | exact Hrad].
Defined.

(** C7 as stated fails: a call rejected for a null path fails (status -5)
    and writes no detail: on a fresh handle the string stays empty, and after
    an engine failure it stays the message of that older failure. *)
Lemma rejected_call_keeps_error :
  returned
    ((r <- meshmind_load_target handle None ;;
      e <- meshmind_get_error handle ;;
      ret (r, e)) empty_session)
  = Some (MESHMIND_ERROR_INVALID_PARAM, "") /\
  returned
    (run_session handle [LoadTarget (Some "missing.stl"); LoadTarget None]
       empty_session)
  = Some [(-2, "FileNotFoundError: missing.stl");
          (-5, "FileNotFoundError: missing.stl")].
Proof. split; vm_compute; reflexivity. Qed.

Lemma last_error_per_handle_witness :
  meshmind_create_detector (boot [] 0) = Returns handle empty_session /\
  meshmind_get_error handle empty_session = Returns "" empty_session /\
  reports (run_call handle (LoadTarget (Some "missing.stl"))) 1%positive
    MESHMIND_ERROR_LOAD "FileNotFoundError: missing.stl" empty_session.
Proof.
  assert (h1 : meshmind_create_detector (boot [] 0)
               = Returns handle empty_session) by reflexivity.
  destruct (last_error_per_handle (boot [] 0)) as (Hcreate & _).
  destruct (Hcreate 1%positive empty_session h1) as (_ & _ & Hget & _).
  destruct (last_error_per_handle empty_session) as (_ & _ & _ & Hcatch & _).
  split; [exact h1 | split; [exact Hget |]].
  apply (Hcatch 1%positive new_detector (LoadTarget (Some "missing.stl"))
           (load_target_try 1%positive "missing.stl") MESHMIND_ERROR_LOAD
           {| exc_type := "FileNotFoundError"; exc_value := "missing.stl" |}
           empty_session);
    reflexivity.
Defined.

Lemma detect_cache_mirrors_array_witness :
  exists d',
    valid (after [Detect buffer 5] car_session) 1%positive d' /\
    length (cached_detections d') = 2%nat /\
    cached_detections d'
    = take 2 (default []
                (arrays (after [Detect buffer 5] car_session) !! 1%positive)).
Proof.
  apply (detect_cache_mirrors_array car_session
           (after [Detect buffer 5] car_session) 1%positive 1%positive
           new_detector 5 2);
    [reflexivity | vm_compute; reflexivity | lia].
Defined.

End Examples.

Section Malformed.
Import Scripted Cases.


Lemma marshal_feature_id_read_back_witness :
  marshal wheel tt = Returns wheel_record tt /\
  read_c_string (feature_id wheel_record) = Some "wheel".
Proof.
  assert (h : marshal wheel tt = Returns wheel_record tt) by reflexivity.
  split; [exact h |].
  destruct (marshal_feature_id_read_back wheel wheel_record tt h)
    as (id & Hid & _ & Hwhole).
  simpl in Hid. injection Hid as <-.
  apply Hwhole; [simpl; lia |].
  simpl. intros H. repeat destruct H as [H | H]; try discriminate H. exact H.
Defined.

Lemma detect_failure_keeps_partial_results_witness :
  marshal broken tt
  = Throws (error_already_set
      {| exc_type := "AttributeError";
         exc_value := "'Detection' object has no attribute 'feature_id'" |}) tt /\
  meshmind_detect handle buffer 5 broken_session =
  Returns (-3)
    {| detectors :=
         <[1%positive :=
             set_last_error
               "AttributeError: 'Detection' object has no attribute 'feature_id'"
               (set_cached_detections [wheel_record] new_detector)]>
           (detectors broken_session);
       arrays :=
         <[1%positive := [wheel_record; zeroed_detection; zeroed_detection]]>
           (arrays broken_session);
       python := python broken_session |}.
Proof.
  split; [reflexivity |].
  apply (detect_failure_keeps_partial_results broken_session 1%positive
           1%positive new_detector (replicate 3 zeroed_detection) 5
           [wheel; broken] (python broken_session) [wheel_record] broken
           {| exc_type := "AttributeError";
              exc_value :=
                "'Detection' object has no attribute 'feature_id'" |});
    [reflexivity | reflexivity | reflexivity | repeat constructor | simpl; lia
     | vm_compute; lia | reflexivity | reflexivity].
Defined.

Lemma detect_wrong_rank_escapes_witness :
  py_transform flat = Value (OtherRank 1) /\
  meshmind_detect handle buffer 5 flat_session =
  Throws (std_exception
            "array has incorrect number of dimensions: 1; expected 2")
    {| detectors :=
         <[1%positive := set_cached_detections [wheel_record] new_detector]>
           (detectors flat_session);
       arrays :=
         <[1%positive := [wheel_record; zeroed_detection; zeroed_detection]]>
           (arrays flat_session);
       python := python flat_session |}.
Proof.
  split; [reflexivity |].
  apply (detect_wrong_rank_escapes flat_session 1%positive 1%positive
           new_detector (replicate 3 zeroed_detection) 5 [wheel; flat]
           (python flat_session) [wheel_record] flat "flat" 1);
    [reflexivity | reflexivity | reflexivity | repeat constructor | simpl; lia
     | vm_compute; lia | reflexivity | reflexivity | reflexivity].
Defined.

Lemma detect_short_array_undefined_witness :
  arrays short_session !! 1%positive = Some [zeroed_detection] /\
  detections (mesher new_detector) (python short_session)
    = Returns [wheel; bolt] (python short_session) /\
  meshmind_detect handle buffer 5 short_session = Undefined.
Proof.
  split; [reflexivity | split; [reflexivity |]].
  apply (detect_short_array_undefined short_session 1%positive 1%positive
           new_detector [zeroed_detection] 5 [wheel; bolt]
           (python short_session) [wheel_record] bolt bolt_record);
    [reflexivity | reflexivity | reflexivity | vm_compute; discriminate
     | vm_compute; reflexivity | repeat constructor | reflexivity
     | reflexivity].
Defined.

Lemma detect_status_cases_witness :
  meshmind_detect handle buffer 5 car_session
  = Returns 2 (final (meshmind_detect handle buffer 5) car_session) /\
  exists dets p,
    detections (mesher new_detector) (python car_session) = Returns dets p /\
    2 = Z.min 5 (Z.of_nat (length dets)).
Proof.
  assert (h : meshmind_detect (Some 1%positive) (Some 1%positive) 5 car_session
              = Returns 2 (final (meshmind_detect handle buffer 5) car_session))
    by (vm_compute; reflexivity).
  split; [exact h |].
  destruct (detect_status_cases car_session
              (final (meshmind_detect handle buffer 5) car_session)
              1%positive 1%positive new_detector 5 2)
    as [(H & _) | [(H & _) | (_ & _ & H)]];
    [reflexivity
     | intros dets p H; simpl in H; injection H as <- _; vm_compute;
       discriminate
     | exact h
     | unfold MESHMIND_ERROR_INVALID_PARAM in H; lia
     | unfold MESHMIND_ERROR_DETECT in H; lia
     | exact H].
Defined.

Lemma create_failure_returns_null_witness :
  new_scoped_interpreter (python empty_session)
  = Throws (std_exception "The interpreter is already running")
      (python empty_session) /\
  exists w',
    meshmind_create_detector empty_session = Returns nullptr w' /\
    python w' = python empty_session.
Proof.
  assert (h : new_scoped_interpreter (python empty_session)
              = Throws (std_exception "The interpreter is already running")
                  (python empty_session)) by reflexivity.
  split; [exact h |].
  destruct (create_failure_returns_null empty_session) as (_ & Hstart & _).
  exact (Hstart _ _ h).
Defined.

Lemma call_keeps_the_rest_witness :
  run_call (Some 1%positive) (Detect buffer 5) car_session
  = Returns 2 (final (meshmind_detect handle buffer 5) car_session) /\
  length <$> arrays (final (meshmind_detect handle buffer 5) car_session)
               !! 1%positive
  = Some 3%nat.
Proof.
  assert (h : run_call (Some 1%positive) (Detect buffer 5) car_session
              = Returns 2 (final (meshmind_detect handle buffer 5) car_session))
    by (vm_compute; reflexivity).
  split; [exact h |].
  pose proof (call_keeps_the_rest 1%positive (Detect buffer 5) car_session)
    as H.
  match type of H with
  | match ?o with _ => _ end =>
      assert (h' : o = Returns 2
                         (final (meshmind_detect handle buffer 5) car_session))
        by exact h;
      rewrite h' in H
  end.
  destruct H as (_ & _ & H). rewrite H. reflexivity.
Defined.

Lemma other_calls_keep_results_witness :
  run_call handle (LoadTarget (Some "missing.stl")) empty_session
  = Returns (-2)
      (final (run_call handle (LoadTarget (Some "missing.stl")))
         empty_session) /\
  arrays (final (run_call handle (LoadTarget (Some "missing.stl")))
            empty_session)
  = arrays empty_session.
Proof.
  assert (h : run_call handle (LoadTarget (Some "missing.stl")) empty_session
              = Returns (-2)
                  (final (run_call handle (LoadTarget (Some "missing.stl")))
                     empty_session)) by (vm_compute; reflexivity).
  split; [exact h |].
  destruct (other_calls_keep_results empty_session
              (final (run_call handle (LoadTarget (Some "missing.stl")))
                 empty_session)
              1%positive new_detector (LoadTarget (Some "missing.stl")) (-2))
    as [H _]; [reflexivity | reflexivity | exact h | exact H].
Defined.

End Malformed.

Section Unloaded.
Import Lazy.

Lemma detect_read_failure_keeps_cache_witness :
  meshmind_detect (Some 1%positive) (Some 1%positive) 5 unloaded_session =
  Returns (-3)
    {| detectors :=
         <[1%positive :=
             set_last_error
               "AttributeError: 'AutoMesher' object has no attribute 'detections'"
               used_detector]>
           (detectors unloaded_session);
       arrays := arrays unloaded_session;
       python := python unloaded_session |}.
Proof.
  apply (detect_read_failure_keeps_cache unloaded_session 1%positive
           1%positive used_detector 5 (python unloaded_session)
           {| exc_type := "AttributeError";
              exc_value :=
                "'AutoMesher' object has no attribute 'detections'" |});
    [reflexivity | lia | reflexivity].
Defined.

End Unloaded.

Section Runs.
Import Scripted Cases.

Lemma print_features_after_detect_witness :
  meshmind_detect handle buffer 5 car_session
  = Returns 2 (final (meshmind_detect handle buffer 5) car_session) /\
  print_features 1%positive 2
    {| memory := final (meshmind_detect handle buffer 5) car_session;
       outputs := [] |}
  = Returns tt
      {| memory := final (meshmind_detect handle buffer 5) car_session;
         outputs := [feature_line wheel_record "wheel";
                     feature_line bolt_record "bolt"] |}.
Proof.
  assert (h : meshmind_detect (Some 1%positive) (Some 1%positive) 5 car_session
              = Returns 2 (final (meshmind_detect handle buffer 5) car_session))
    by (vm_compute; reflexivity).
  split; [exact h |].
  destruct (print_features_after_detect car_session
              (final (meshmind_detect handle buffer 5) car_session)
              1%positive 1%positive new_detector 5 2 [wheel; bolt]
              (python car_session) [])
    as [H _]; [reflexivity | reflexivity | exact h | lia |].
  exact H.
Defined.

Lemma show_results_after_detect_witness :
  meshmind_detect handle buffer 5 car_session
  = Returns 2 (final (meshmind_detect handle buffer 5) car_session) /\
  show_results 1%positive 2
    {| memory := final (meshmind_detect handle buffer 5) car_session;
       outputs := [] |}
  = Returns tt
      {| memory := final (meshmind_detect handle buffer 5) car_session;
         outputs := result_items 0 wheel_record "wheel" ++
                    result_items 1 bolt_record "bolt" |}.
Proof.
  assert (h : meshmind_detect (Some 1%positive) (Some 1%positive) 5 car_session
              = Returns 2 (final (meshmind_detect handle buffer 5) car_session))
    by (vm_compute; reflexivity).
  split; [exact h |].
  destruct (show_results_after_detect car_session
              (final (meshmind_detect handle buffer 5) car_session)
              1%positive 1%positive new_detector 5 2 [wheel; bolt]
              (python car_session) [])
    as [H _]; [reflexivity | reflexivity | exact h | lia |].
  exact H.
Defined.

Lemma engine_calls_see_only_the_engine_witness :
  valid (after [LoadTarget (Some "car.stl"); Detect buffer 1] car_session)
    1%positive (set_cached_detections [wheel_record] new_detector) /\
  valid (after [LoadTarget (Some "car.stl")] car_session) 1%positive
    new_detector /\
  run_call handle (ExportFtetwildSizing (Some "sizing.json"))
    (after [LoadTarget (Some "car.stl"); Detect buffer 1] car_session)
  = Returns 0
      (final (run_call handle (ExportFtetwildSizing (Some "sizing.json")))
         (after [LoadTarget (Some "car.stl"); Detect buffer 1] car_session)) /\
  exists w2',
    run_call handle (ExportFtetwildSizing (Some "sizing.json"))
      (after [LoadTarget (Some "car.stl")] car_session)
    = Returns 0 w2' /\
    python w2'
    = python
        (final (run_call handle (ExportFtetwildSizing (Some "sizing.json")))
           (after [LoadTarget (Some "car.stl"); Detect buffer 1] car_session)).
Proof.
  assert (h1 : valid
                 (after [LoadTarget (Some "car.stl"); Detect buffer 1]
                    car_session)
                 1%positive (set_cached_detections [wheel_record] new_detector))
    by (vm_compute; reflexivity).
  assert (h2 : valid (after [LoadTarget (Some "car.stl")] car_session)
                 1%positive new_detector) by (vm_compute; reflexivity).
  assert (h3 : run_call handle (ExportFtetwildSizing (Some "sizing.json"))
                 (after [LoadTarget (Some "car.stl"); Detect buffer 1]
                    car_session)
               = Returns 0
                   (final
                      (run_call handle
                         (ExportFtetwildSizing (Some "sizing.json")))
                      (after [LoadTarget (Some "car.stl"); Detect buffer 1]
                         car_session))) by (vm_compute; reflexivity).
  split; [exact h1 | split; [exact h2 | split; [exact h3 |]]].
  apply (engine_calls_see_only_the_engine _ _ _ 1%positive _ _
           (ExportFtetwildSizing (Some "sizing.json")) 0 h1 h2);
    [reflexivity | vm_compute; reflexivity | reflexivity | exact h3].
Defined.

End Runs.

Section WithoutSDK.
Import Bare.



End WithoutSDK.
